(** * Templater: the template store of [main.py]

    A shallow embedding of the part of [main.py] that owns the templates:
    the [Template] codec ([to_dict] / [from_dict]), the JSON persistence
    ([load_templates] / [save_templates]), the listbox filter
    ([update_template_list]), the two mutating actions
    ([create_template] / [edit_template]), the start of the application
    ([__init__]), the copy to the clipboard ([copy_template]) and the
    status messages.

    Conventions of the embedding.
    - Python [str] is [string]; every [ascii] is read as the code point
      U+0000 .. U+00FF it numbers (the Latin-1 range of [str]).
    - A Python object that may hold any JSON value is a [pyval].
    - A method of [TemplaterApp] is a computation of the monad [py]: it
      threads the application state and either returns or raises.
    - The answers of the user (what the dialog returns, which listbox row
      is selected, what the search box returns) are arguments. *)

From Stdlib Require Import String Ascii ZArith NArith List Lia DecimalString.
From stdpp Require Import base list strings.

Open Scope string_scope.
Open Scope list_scope.

(** [+:+] appends strings, [++] lists; [simpl] may unfold the first on a
    constructor. *)
#[local] Arguments String.append !_ _ / : simpl nomatch.

(** ** Text: the [str] methods the program calls *)

Module Str.

Definition code (c : ascii) : N := N_of_ascii c.

Definition between (lo hi n : N) : bool := (lo <=? n)%N && (n <=? hi)%N.

(** [c.isspace()] on U+0000 .. U+00FF: TAB .. CR, FS .. US, SPACE, NEL
    and NBSP. *)
Definition isspace (c : ascii) : bool :=
  let n := code c in
  between 9 13 n || between 28 32 n || (n =? 133)%N || (n =? 160)%N.

(** [c.lower()] on U+0000 .. U+00FF: A .. Z, and the accented capitals
    U+00C0 .. U+00DE but the multiplication sign U+00D7. *)
Definition lower_char (c : ascii) : ascii :=
  let n := code c in
  if between 65 90 n || between 192 214 n || between 216 222 n
  then ascii_of_N (n + 32) else c.

(** [s.lower()] on text of U+0000 .. U+00FF, where every character has
    its lower case whatever stands around it. *)
Fixpoint lower (s : string) : string :=
  match s with
  | EmptyString => EmptyString
  | String c s' => String (lower_char c) (lower s')
  end.

(** [s.lstrip()] *)
Fixpoint lstrip (s : string) : string :=
  match s with
  | EmptyString => EmptyString
  | String c s' => if isspace c then lstrip s' else s
  end.

(** [s.rstrip()] *)
Fixpoint rstrip (s : string) : string :=
  match s with
  | EmptyString => EmptyString
  | String c s' =>
      match rstrip s' with
      | EmptyString => if isspace c then EmptyString else String c EmptyString
      | r => String c r
      end
  end.

(** [s.strip()] *)
Definition strip (s : string) : string := rstrip (lstrip s).

(** [s.startswith(p)] *)
Fixpoint startswith (p s : string) : bool :=
  match p, s with
  | EmptyString, _ => true
  | String a p', String b s' => Ascii.eqb a b && startswith p' s'
  | String _ _, EmptyString => false
  end.

(** [sub in s] *)
Fixpoint contains (sub s : string) : bool :=
  startswith sub s ||
  match s with
  | EmptyString => false
  | String _ s' => contains sub s'
  end.

(** [s[:n]] for [n >= 0] *)
Fixpoint take (n : nat) (s : string) : string :=
  match n, s with
  | S n', String c s' => String c (take n' s')
  | _, _ => EmptyString
  end.

(** [str(n)] for a length *)
Definition of_nat (n : nat) : string := NilZero.string_of_uint (Nat.to_uint n).

(** [bool(s)]: the empty string is falsy *)
Definition truthy (s : string) : bool :=
  match s with EmptyString => false | String _ _ => true end.

(** Every character of [s] is white space. *)
Fixpoint blank (s : string) : bool :=
  match s with
  | EmptyString => true
  | String c s' => isspace c && blank s'
  end.

End Str.

(** ** Python values and exceptions *)

(** The values [json.load] can return, floats apart (see [Json]). A [dict]
    keeps its items in insertion order, so it is an association list whose
    keys are pairwise distinct. *)
#[local] Set Warnings "-register-all".
Inductive pyval : Type :=
| PNone
| PBool (b : bool)
| PInt (z : Z)
| PStr (s : string)
| PList (items : list pyval)
| PDict (items : list (string * pyval)).

(** The exception classes that occur. [ValueError] is a [ValueError]
    that is no [JSONDecodeError] (the second is a subclass of the first,
    and the program names the subclass only). [OutsideModel] is not a
    Python exception: it marks a run that the embedding does not follow
    (a JSON document with a float or a character above U+00FF, or one
    that nests deeper than [Json.nesting]). *)
Inductive exn : Type :=
| FileNotFoundError
| JSONDecodeError
| ValueError
| KeyError
| TypeError
| IndexError
| AttributeError
| OutsideModel.

Inductive result (A : Type) : Type :=
| Returns (a : A)
| Raises (e : exn).
Arguments Returns {A} a.
Arguments Raises {A} e.

(** [d[key]] on a dict *)
Fixpoint dict_get (key : string) (items : list (string * pyval)) : option pyval :=
  match items with
  | [] => None
  | (k, v) :: rest => if String.eqb k key then Some v else dict_get key rest
  end.

(** [data[key]] for a string [key]: only a dict can be subscripted by a
    string; a missing key is a [KeyError], everything else a [TypeError]. *)
Definition getitem_str (data : pyval) (key : string) : result pyval :=
  match data with
  | PDict items =>
      match dict_get key items with
      | Some v => Returns v
      | None => Raises KeyError
      end
  | _ => Raises TypeError
  end.

(** [iter(data)]: the elements of a list, the keys of a dict, the
    characters of a string; nothing else is iterable. *)
Definition iterate (data : pyval) : result (list pyval) :=
  match data with
  | PList items => Returns items
  | PDict items => Returns (map (fun kv => PStr (fst kv)) items)
  | PStr s => Returns (map (fun c => PStr (String c EmptyString)) (list_ascii_of_string s))
  | _ => Raises TypeError
  end.

(** ** class Template *)

Record Template : Type := mkTemplate { description : pyval }.

(** [Template.to_dict] *)
Definition to_dict (self : Template) : pyval :=
  PDict [("description", description self)].

(** [Template.from_dict] *)
Definition from_dict (data : pyval) : result Template :=
  match getitem_str data "description" with
  | Returns v => Returns (mkTemplate v)
  | Raises e => Raises e
  end.

(** ** class TemplateInputDialog *)

Module TemplateInputDialog.

(** [TemplateInputDialog.apply]: the result of the dialog is the text of
    the widget, stripped. *)
Definition apply (text : string) : string := Str.strip text.

End TemplateInputDialog.

(** ** The [json] library: [json.dump] and [json.load]

    The two library calls of the store, with their default options
    ([ensure_ascii], separators [", "] and [": "], strict strings), on text
    of U+0000 .. U+00FF. The reader has the two limits of the interpreter
    that a file can reach, the digits of an integer and the depth of the
    recursion. On a document that needs a float ([1.5], [1e3], [NaN],
    [Infinity]) or a character above U+00FF (a backslash-u escape from
    0100 on), and on one that nests deeper than every interpreter is
    known to follow, the embedding gives no verdict. *)

Module Json.

Definition eqc (c d : ascii) : bool := Ascii.eqb c d.

Definition quote : ascii := "034"%char.

(** *** Writing *)

Definition hex_digit (n : N) : ascii :=
  if (n <? 10)%N then ascii_of_N (48 + n) else ascii_of_N (87 + n).

(** The replacement of one character in a string literal. *)
Definition escape_char (c : ascii) : string :=
  let n := Str.code c in
  if eqc c quote then String "\" (String quote EmptyString)
  else if eqc c "\" then "\\"
  else if (n =? 10)%N then "\n"
  else if (n =? 13)%N then "\r"
  else if (n =? 9)%N then "\t"
  else if (n =? 8)%N then "\b"
  else if (n =? 12)%N then "\f"
  else if Str.between 32 126 n then String c EmptyString
  else String "\" (String "u" (String "0" (String "0"
         (String (hex_digit (n / 16)) (String (hex_digit (n mod 16)) EmptyString))))).

Fixpoint escape (s : string) : string :=
  match s with
  | EmptyString => EmptyString
  | String c s' => escape_char c +:+ escape s'
  end.

(** [encode_basestring_ascii] *)
Definition encode_str (s : string) : string :=
  String quote (escape s +:+ String quote EmptyString).

(** [int.__repr__] *)
Definition encode_int (z : Z) : string := NilZero.string_of_int (Z.to_int z).

(** [json.dumps] *)
Fixpoint dumps (v : pyval) : string :=
  match v with
  | PNone => "null"
  | PBool true => "true"
  | PBool false => "false"
  | PInt z => encode_int z
  | PStr s => encode_str s
  | PList items => "[" +:+ String.concat ", " (map dumps items) +:+ "]"
  | PDict items =>
      "{" +:+ String.concat ", "
                (map (fun kv : string * pyval =>
                        let (k, v) := kv in encode_str k +:+ ": " +:+ dumps v) items)
          +:+ "}"
  end.

(** *** Reading *)

(** What a scanner gives: the value read and the text after it, or how
    the scan ends. The text of a float or of an escape above 00ff is
    scanned as [json.load] scans it, so that an error behind it is found;
    the value then holds a stand-in and [exact] is [false]. *)
Inductive parse (A : Type) : Type :=
| Ok (exact : bool) (a : A) (rest : string)
| Invalid                      (* JSONDecodeError *)
| TooLong                      (* ValueError: an integer of more than 4300 digits *)
| TooDeep                      (* more than [nesting] containers, one in the other *)
| NoFuel.
Arguments Ok {A} exact a rest.
Arguments Invalid {A}.
Arguments TooLong {A}.
Arguments TooDeep {A}.
Arguments NoFuel {A}.

Definition pmap {A B : Type} (f : A -> B) (p : parse A) : parse B :=
  match p with
  | Ok exact a rest => Ok exact (f a) rest
  | Invalid => Invalid
  | TooLong => TooLong
  | TooDeep => TooDeep
  | NoFuel => NoFuel
  end.

(** The value read holds a stand-in. *)
Definition inexact {A : Type} (p : parse A) : parse A :=
  match p with
  | Ok _ a rest => Ok false a rest
  | _ => p
  end.

Definition is_ws (c : ascii) : bool :=
  eqc c " " || eqc c "009" || eqc c "010" || eqc c "013".

(** [WHITESPACE.match(s, idx).end()] *)
Fixpoint skip_ws (s : string) : string :=
  match s with
  | EmptyString => EmptyString
  | String c s' => if is_ws c then skip_ws s' else s
  end.

Definition is_digit (c : ascii) : bool := Str.between 48 57 (Str.code c).

Definition hex_value (c : ascii) : option N :=
  let n := Str.code c in
  if Str.between 48 57 n then Some (n - 48)%N
  else if Str.between 97 102 n then Some (n - 87)%N
  else if Str.between 65 70 n then Some (n - 55)%N
  else None.

Definition hex4 (a b c d : ascii) : option N :=
  match hex_value a, hex_value b, hex_value c, hex_value d with
  | Some x, Some y, Some z, Some w => Some (((x * 16 + y) * 16 + z) * 16 + w)%N
  | _, _, _, _ => None
  end.

(** The [BACKSLASH] table. *)
Definition unescape (e : ascii) : option ascii :=
  if eqc e quote then Some quote
  else if eqc e "\" then Some "\"%char
  else if eqc e "/" then Some "/"%char
  else if eqc e "b" then Some "008"%char
  else if eqc e "f" then Some "012"%char
  else if eqc e "n" then Some "010"%char
  else if eqc e "r" then Some "013"%char
  else if eqc e "t" then Some "009"%char
  else None.

(** [scanstring], entered after the opening quote. An escape from 0100
    on is a character that the embedding has no room for: a question
    mark stands for it and the string is not exact. *)
Fixpoint scanstring (s : string) : parse string :=
  match s with
  | EmptyString => Invalid
  | String c s' =>
      if eqc c quote then Ok true EmptyString s'
      else if eqc c "\" then
        match s' with
        | EmptyString => Invalid
        | String e s'' =>
            if eqc e "u" then
              match s'' with
              | String h1 (String h2 (String h3 (String h4 s5))) =>
                  match hex4 h1 h2 h3 h4 with
                  | Some n =>
                      if (n <? 256)%N
                      then pmap (String (ascii_of_N n)) (scanstring s5)
                      else inexact (pmap (String "?") (scanstring s5))
                  | None => Invalid
                  end
              | _ => Invalid
              end
            else
              match unescape e with
              | Some ch => pmap (String ch) (scanstring s'')
              | None => Invalid
              end
        end
      else if (Str.code c <? 32)%N then Invalid
      else pmap (String c) (scanstring s')
  end.

(** The longest run of digits at the head of [s]: the number that
    continues [acc], how many digits it has with the [count] before, and
    what follows it. *)
Fixpoint digits (acc : Z) (count : N) (s : string) : Z * N * string :=
  match s with
  | String c s' =>
      if is_digit c
      then digits (acc * 10 + Z.of_N (Str.code c - 48)) (count + 1) s'
      else (acc, count, s)
  | EmptyString => (acc, count, s)
  end.

Fixpoint skip_digits (s : string) : string :=
  match s with
  | String c s' => if is_digit c then skip_digits s' else s
  | EmptyString => s
  end.

(** The fraction of a number: a point and at least one digit. *)
Definition fraction (s : string) : option string :=
  match s with
  | String c (String d r) =>
      if eqc c "." && is_digit d then Some (skip_digits r) else None
  | _ => None
  end.

(** The exponent of a number: [e] or [E], a sign or none, and at least
    one digit. *)
Definition exponent (s : string) : option string :=
  match s with
  | String c s' =>
      if eqc c "e" || eqc c "E" then
        match (match s' with
               | String g r => if eqc g "+" || eqc g "-" then r else s'
               | EmptyString => s'
               end) with
        | String d r => if is_digit d then Some (skip_digits r) else None
        | EmptyString => None
        end
      else None
  | EmptyString => None
  end.

(** After the integer part: a fraction, an exponent or both make the
    literal a float, which ends where the text given back starts. *)
Definition float_tail (s : string) : option string :=
  match fraction s with
  | Some r =>
      match exponent r with
      | Some r' => Some r'
      | None => Some r
      end
  | None => exponent s
  end.

(** [sys.int_info.default_max_str_digits]: [int] refuses a decimal
    literal of more digits with a [ValueError] (CPython from 3.11 on, and
    the security releases of the versions before). *)
Definition max_str_digits : N := 4300.

(** [match_number], entered after the sign. A float is converted by
    [float], which takes any number of digits. *)
Definition scan_unsigned (negative : bool) (s : string) : parse pyval :=
  match s with
  | String c s' =>
      if is_digit c then
        let '(n, count, rest) := if eqc c "0" then (0%Z, 1%N, s') else digits 0 0 s in
        match float_tail rest with
        | Some rest' => Ok false PNone rest'
        | None =>
            if (max_str_digits <? count)%N then TooLong
            else Ok true (PInt (if negative then - n else n)) rest
        end
      else Invalid
  | EmptyString => Invalid
  end.

Definition scan_number (s : string) : parse pyval :=
  match s with
  | String c s' => if eqc c "-" then scan_unsigned true s' else scan_unsigned false s
  | EmptyString => Invalid
  end.

Fixpoint drop (n : nat) (s : string) : string :=
  match n, s with
  | S n', String _ s' => drop n' s'
  | _, _ => s
  end.

(** [dict(pairs)]: a key that comes again keeps its place and takes the
    later value. *)
Fixpoint dict_set (k : string) (v : pyval) (items : list (string * pyval))
  : list (string * pyval) :=
  match items with
  | [] => [(k, v)]
  | (k', v') :: rest =>
      if String.eqb k' k then (k', v) :: rest else (k', v') :: dict_set k v rest
  end.

(** The scanner enters a recursive call of the interpreter for every
    array and object that it opens, and the interpreter raises
    [RecursionError] when its limit is reached. Where that is depends on
    the interpreter and on the calls that are open; every CPython with
    its default limit takes a hundred containers, one in the other, at
    the call of [load_templates]. The embedding follows a document that
    far. *)
Definition nesting : nat := 100.

(** [scan_once], [JSONArray] after the first element's position is
    reached, and [JSONObject] after the opening quote of a key. [room]
    is the number of containers that may still be opened, one in the
    other; [exact] says that what is in [acc] is exact. *)
Fixpoint value (fuel room : nat) (s : string) : parse pyval :=
  match fuel with
  | O => NoFuel
  | S fuel' =>
      match s with
      | EmptyString => Invalid
      | String c s' =>
          if eqc c quote then pmap PStr (scanstring s')
          else if eqc c "{" then
            match room with
            | O => TooDeep
            | S room' =>
                match skip_ws s' with
                | String d r =>
                    if eqc d "}" then Ok true (PDict []) r
                    else if eqc d quote then members fuel' room' r [] true
                    else Invalid
                | EmptyString => Invalid
                end
            end
          else if eqc c "[" then
            match room with
            | O => TooDeep
            | S room' =>
                match skip_ws s' with
                | String d r =>
                    if eqc d "]" then Ok true (PList []) r
                    else elements fuel' room' (String d r) [] true
                | EmptyString => Invalid
                end
            end
          else if Str.startswith "null" s then Ok true PNone (drop 4 s)
          else if Str.startswith "true" s then Ok true (PBool true) (drop 4 s)
          else if Str.startswith "false" s then Ok true (PBool false) (drop 5 s)
          else if Str.startswith "NaN" s then Ok false PNone (drop 3 s)
          else if Str.startswith "Infinity" s then Ok false PNone (drop 8 s)
          else if Str.startswith "-Infinity" s then Ok false PNone (drop 9 s)
          else scan_number s
      end
  end
with elements (fuel room : nat) (s : string) (acc : list pyval) (exact : bool)
  : parse pyval :=
  match fuel with
  | O => NoFuel
  | S fuel' =>
      match value fuel' room s with
      | Ok e v r =>
          match skip_ws r with
          | String d r' =>
              if eqc d "]" then Ok (exact && e) (PList (acc ++ [v])) r'
              else if eqc d "," then
                elements fuel' room (skip_ws r') (acc ++ [v]) (exact && e)
              else Invalid
          | EmptyString => Invalid
          end
      | Invalid => Invalid
      | TooLong => TooLong
      | TooDeep => TooDeep
      | NoFuel => NoFuel
      end
  end
with members (fuel room : nat) (s : string) (acc : list (string * pyval)) (exact : bool)
  : parse pyval :=
  match fuel with
  | O => NoFuel
  | S fuel' =>
      match scanstring s with
      | Ok ek k r =>
          match skip_ws r with
          | String d r' =>
              if eqc d ":" then
                match value fuel' room (skip_ws r') with
                | Ok ev v r2 =>
                    match skip_ws r2 with
                    | String d2 r3 =>
                        if eqc d2 "}"
                        then Ok (exact && ek && ev) (PDict (dict_set k v acc)) r3
                        else if eqc d2 "," then
                          match skip_ws r3 with
                          | String d3 r4 =>
                              if eqc d3 quote
                              then members fuel' room r4 (dict_set k v acc)
                                     (exact && ek && ev)
                              else Invalid
                          | EmptyString => Invalid
                          end
                        else Invalid
                    | EmptyString => Invalid
                    end
                | Invalid => Invalid
                | TooLong => TooLong
                | TooDeep => TooDeep
                | NoFuel => NoFuel
                end
              else Invalid
          | EmptyString => Invalid
          end
      | Invalid => Invalid
      | TooLong => TooLong
      | TooDeep => TooDeep
      | NoFuel => NoFuel
      end
  end.

(** What [json.loads] does with a text. *)
Inductive decoded : Type :=
| Document (v : pyval)         (* returns [v] *)
| Malformed                    (* raises JSONDecodeError *)
| Overflow                     (* raises ValueError: an integer of more than 4300 digits *)
| Beyond.                      (* no verdict *)

(** [json.loads]: one value between optional white space, and nothing
    after it. A call of [value] consumes a character and a call of
    [elements] or [members] is followed by one, so twice the length of the
    text bounds the depth of the calls (see [loads_fuel]).

    [Beyond] is the answer for a text that [json.load] reads to its end
    as a document with a float or an escape above 00ff in it, and for a
    text that opens more than [nesting] containers, one in the other,
    before an error is found. Every other text has the answer of
    [json.load]: an error of syntax is [Malformed] also behind a float or
    such an escape, and an integer of more than 4300 digits is [Overflow]
    at the place where the scan reaches it. *)
Definition loads (text : string) : decoded :=
  match value (S (2 * String.length text)) nesting (skip_ws text) with
  | Ok exact v rest =>
      match skip_ws rest with
      | EmptyString => if exact then Document v else Beyond
      | String _ _ => Malformed
      end
  | Invalid => Malformed
  | TooLong => Overflow
  | TooDeep => Beyond
  | NoFuel => Beyond
  end.

End Json.

(** ** class TemplaterApp: state and effects *)

Inductive level : Type := DEBUG | WARNING | ERROR.

(** A call of [logging]. [LogExc msg e] is [logging.error] of the f-string
    that ends in [str(e)]. Every [print] repeats the [logging] call next
    to it and is left out. *)
Inductive log_record : Type :=
| Log (lvl : level) (msg : string)
| LogExc (msg : string) (e : exn).

(** What the methods of the store read and write: the list
    [self.templates], the rows of [self.template_listbox], the file
    [templates.json] of the application data directory ([None]: there is no
    such file), the log and the error boxes shown, oldest first. The
    file is its text as [open] decodes it; reading a file that is there
    and writing the file do not fail.

    Every [Template] of [templates] is an object of its own (each is made
    by a call of the constructor and stored once), so the list of
    references is a list of records and assigning [template.description]
    rewrites one position. *)
Record TemplaterApp : Type := mkApp {
  templates : list Template;
  template_listbox : list string;
  templates_json : option string;
  logged : list log_record;
  shown : list (string * exn)
}.

Definition py (A : Type) : Type := TemplaterApp -> result A * TemplaterApp.

#[global] Instance py_ret : MRet py := fun A (a : A) app => (Returns a, app).

#[global] Instance py_bind : MBind py := fun A B (f : A -> py B) (m : py A) app =>
  match m app with
  | (Returns a, app') => f a app'
  | (Raises e, app') => (Raises e, app')
  end.

Definition raise {A : Type} (e : exn) : py A := fun app => (Raises e, app).

Definition lift {A : Type} (r : result A) : py A := fun app => (r, app).

Definition gets {A : Type} (f : TemplaterApp -> A) : py A := fun app => (Returns (f app), app).

Definition modify (f : TemplaterApp -> TemplaterApp) : py unit := fun app => (Returns tt, f app).

(** [try: body except ...: handler]: [handler e] is [None] when no clause
    matches [e], and the exception goes on. *)
Definition try_except {A : Type} (body : py A) (handler : exn -> option (py A)) : py A :=
  fun app =>
    match body app with
    | (Returns a, app') => (Returns a, app')
    | (Raises e, app') =>
        match handler e with
        | Some h => h app'
        | None => (Raises e, app')
        end
    end.

(** [except Exception as e]: every exception of Python. *)
Definition except_Exception {A : Type} (h : exn -> py A) (e : exn) : option (py A) :=
  match e with
  | OutsideModel => None
  | _ => Some (h e)
  end.

(** [for x in xs: body] *)
Fixpoint for_each {A : Type} (xs : list A) (body : A -> py unit) : py unit :=
  match xs with
  | [] => mret tt
  | x :: rest => body x ;; for_each rest body
  end.

(** A list comprehension [[f(x) for x in xs]] of a call that may raise. *)
Fixpoint comprehension {A B : Type} (f : A -> result B) (xs : list A) : result (list B) :=
  match xs with
  | [] => Returns []
  | x :: rest =>
      match f x with
      | Returns y =>
          match comprehension f rest with
          | Returns ys => Returns (y :: ys)
          | Raises e => Raises e
          end
      | Raises e => Raises e
      end
  end.

Definition set_templates (ts : list Template) : py unit :=
  modify (fun app => mkApp ts (template_listbox app) (templates_json app) (logged app) (shown app)).

Definition set_listbox (rows : list string) : py unit :=
  modify (fun app => mkApp (templates app) rows (templates_json app) (logged app) (shown app)).

(** [with open(file_path, "w") as f: f.write(text)] *)
Definition write_file (text : string) : py unit :=
  modify (fun app => mkApp (templates app) (template_listbox app) (Some text) (logged app) (shown app)).

Definition logging (r : log_record) : py unit :=
  modify (fun app => mkApp (templates app) (template_listbox app) (templates_json app)
                       (logged app ++ [r]) (shown app)).

(** [messagebox.showerror("Error", f"{msg}{str(e)}")] *)
Definition showerror (msg : string) (e : exn) : py unit :=
  modify (fun app => mkApp (templates app) (template_listbox app) (templates_json app)
                       (logged app) (shown app ++ [(msg, e)])).

(** [open(file_path, "r")] and [f.read()] *)
Definition read_file : py string :=
  fun app =>
    match templates_json app with
    | Some text => (Returns text, app)
    | None => (Raises FileNotFoundError, app)
    end.

(** [json.load(f)] *)
Definition json_load (text : string) : result pyval :=
  match Json.loads text with
  | Json.Document v => Returns v
  | Json.Malformed => Raises JSONDecodeError
  | Json.Overflow => Raises ValueError
  | Json.Beyond => Raises OutsideModel
  end.

(** [seq[index]] for a list of length [n]: the position read, counting
    from the end for a negative index; [None] is an [IndexError]. *)
Definition position (n : nat) (index : Z) : option nat :=
  if (0 <=? index)%Z then
    if (index <? Z.of_nat n)%Z then Some (Z.to_nat index) else None
  else
    if (- Z.of_nat n <=? index)%Z then Some (Z.to_nat (Z.of_nat n + index)) else None.

(** [description.lower()]: a method of [str] only. *)
Definition lower_of (d : pyval) : result string :=
  match d with
  | PStr s => Returns (Str.lower s)
  | _ => Raises AttributeError
  end.

(** [description[:50] + "..."]: a slice of a string; a list slices but
    does not take [+ "..."], and nothing else slices (a dict fails on the
    slice as a key: with a [TypeError] up to Python 3.11, where a slice
    does not hash, and with a [KeyError] from 3.12 on; the model has the
    first). *)
Definition row_of (d : pyval) : result string :=
  match d with
  | PStr s => Returns (Str.take 50 s +:+ "...")
  | _ => Raises TypeError
  end.

(** ** class TemplaterApp: the methods of the store *)

(** [TemplaterApp.load_templates] *)
Definition load_templates : py unit :=
  logging (Log DEBUG "Loading templates") ;;
  try_except
    (text ← read_file ;
     data ← lift (json_load text) ;
     items ← lift (iterate data) ;
     ts ← lift (comprehension from_dict items) ;
     set_templates ts ;;
     n ← gets (fun app => length (templates app)) ;
     logging (Log DEBUG ("Loaded " +:+ Str.of_nat n +:+ " templates")))
    (fun e =>
       match e with
       | FileNotFoundError =>
           Some (logging (Log WARNING "templates.json not found, starting with empty list") ;;
                 set_templates [])
       | JSONDecodeError =>
           Some (logging (Log ERROR "Error decoding templates.json, starting with empty list") ;;
                 set_templates [])
       | _ => None
       end).

(** [TemplaterApp.save_templates] *)
Definition save_templates : py unit :=
  logging (Log DEBUG "Saving templates") ;;
  ts ← gets templates ;
  write_file (Json.dumps (PList (map to_dict ts))) ;;
  n ← gets (fun app => length (templates app)) ;
  logging (Log DEBUG ("Saved " +:+ Str.of_nat n +:+ " templates")).

(** The test [query is None or query.lower() in template.description.lower()];
    [or] does not look at the description when there is no query. *)
Definition selected_by (query : option string) (t : Template) : result bool :=
  match query with
  | None => Returns true
  | Some q =>
      match lower_of (description t) with
      | Returns d => Returns (Str.contains (Str.lower q) d)
      | Raises e => Raises e
      end
  end.

(** [self.template_listbox.insert(tk.END, row)] *)
Definition listbox_insert_end (row : string) : py unit :=
  rows ← gets template_listbox ; set_listbox (rows ++ [row]).

(** The body of the loop of [update_template_list]. *)
Definition insert_if_selected (query : option string) (template : Template) : py unit :=
  keep ← lift (selected_by query template) ;
  if keep : bool then
    row ← lift (row_of (description template)) ;
    listbox_insert_end row
  else mret tt.

(** [TemplaterApp.update_template_list] *)
Definition update_template_list (query : option string) : py unit :=
  logging (Log DEBUG "Updating template list") ;;
  set_listbox [] ;;
  ts ← gets templates ;
  for_each ts (insert_if_selected query) ;;
  n ← gets (fun app => length (template_listbox app)) ;
  logging (Log DEBUG ("Added " +:+ Str.of_nat n +:+ " templates to the listbox")).

(** [dialog.result] of a [TemplateInputDialog]: [None] until [apply] runs,
    which it does when the user confirms. [dialog] is what the user did:
    [Some text] confirms with [text] in the widget, [None] cancels. *)
Definition dialog_result (dialog : option string) : option string :=
  match dialog with
  | Some text => Some (TemplateInputDialog.apply text)
  | None => None
  end.

(** [TemplaterApp.create_template] *)
Definition create_template (dialog : option string) : py unit :=
  logging (Log DEBUG "Creating new template") ;;
  try_except
    (match dialog_result dialog with
     | Some r =>
         if Str.truthy r then
           ts ← gets templates ;
           set_templates (ts ++ [mkTemplate (PStr r)]) ;;
           save_templates ;;
           update_template_list None ;;
           logging (Log DEBUG "Created new template")
         else mret tt
     | None => mret tt
     end)
    (except_Exception (fun e =>
       logging (LogExc "Error creating template: " e) ;;
       showerror "An error occurred while creating the template: " e)).

(** [TemplaterApp.edit_template]; [selected] is
    [self.template_listbox.curselection()]. *)
Definition edit_template (selected : list Z) (dialog : option string) : py unit :=
  logging (Log DEBUG "Editing template") ;;
  match selected with
  | [] => mret tt
  | index :: _ =>
      ts ← gets templates ;
      match position (length ts) index with
      | None => raise IndexError
      | Some i =>
          try_except
            (match dialog_result dialog with
             | Some r =>
                 if Str.truthy r then
                   set_templates (<[i := mkTemplate (PStr r)]> ts) ;;
                   save_templates ;;
                   update_template_list None ;;
                   logging (Log DEBUG "Edited template")
                 else mret tt
             | None => mret tt
             end)
            (except_Exception (fun e =>
               logging (LogExc "Error editing template: " e) ;;
               showerror "An error occurred while editing the template: " e))
      end
  end.

(** [TemplaterApp.search_templates]; [query] is what
    [simpledialog.askstring] returns. *)
Definition search_templates (query : option string) : py unit :=
  logging (Log DEBUG "Searching templates") ;;
  update_template_list query.

(** ** The documents of the store *)

Module Doc.

Import Json.

(** The text of one template. *)
Definition record_text (d : string) : string :=
  dumps (to_dict (mkTemplate (PStr d))).

(** The texts of the templates, joined as [json.dumps] joins the items
    of a list. *)
Definition records_text (ds : list string) : string :=
  String.concat ", " (map record_text ds).

(** The templates whose descriptions are the texts [ds], in order. *)
Definition store (ds : list string) : list Template :=
  map (fun d => mkTemplate (PStr d)) ds.

(** The collection that [save_templates] hands to [json.dump]. *)
Definition records (ds : list string) : pyval :=
  PList (map to_dict (store ds)).

(** [s] between double quotes, as it stands in a JSON text when nothing
    in [s] needs an escape. *)
Definition quoted (s : string) : string :=
  String quote (s +:+ String quote EmptyString).

(** The file of the corrupt-file example of the specification: an object
    with the key [not] and the value [an array]. *)
Definition not_an_array : string :=
  "{" +:+ quoted "not" +:+ ": " +:+ quoted "an array" +:+ "}".

(** An array whose only element is an object without a description. *)
Definition no_description : string := "[{}]".

(** An array whose only element gives the number 5 as description. *)
Definition number_description : string :=
  "[{" +:+ quoted "description" +:+ ": 5}]".

(** An array that is cut short behind an integer of [n] digits. *)
Definition long_integer (n : nat) : string :=
  String "[" (string_of_list_ascii (repeat "1"%char n)).

(** *** The listbox of a collection of texts *)

(** The row that the listbox shows for a description. *)
Definition row (d : string) : string := Str.take 50 d +:+ "...".

(** The test of the loop, on a text. *)
Definition keeps (query : option string) (d : string) : bool :=
  match query with
  | None => true
  | Some q => Str.contains (Str.lower q) (Str.lower d)
  end.

(** *** The search of the specification

    The specification speaks of the (index, template) pairs that a
    search selects, in the order of the store: [search] computes them
    with the test of the code, to be compared with the rows that
    [update_template_list] puts into the listbox. *)

(** The descriptions with their indices, in order. *)
Definition indexed (ds : list string) : list (nat * string) :=
  combine (seq 0 (length ds)) ds.

(** [search(query)]: the selected pairs, in the order of the store. *)
Definition search (query : option string) (ds : list string) : list (nat * string) :=
  List.filter (fun p => keeps query (snd p)) (indexed ds).

End Doc.

(** ** class TemplaterApp: start, clipboard and status bar *)

(** [TemplaterApp.__init__], with [ensure_app_data_dir], [setup_tray] and
    [setup_ui] in place. [app_dir] is what [get_app_data_dir] returns
    (the variable APPDATA is set). The calls that build the tray icon and
    the widgets are taken to succeed and leave no trace in the state but
    their log records; the listbox is filled by the
    [self.update_template_list()] of [setup_ui]. *)
Definition init (app_dir : string) : py unit :=
  set_templates [] ;;
  logging (Log DEBUG ("Application data directory: " +:+ app_dir)) ;;
  load_templates ;;
  logging (Log DEBUG "Setting up tray icon") ;;
  logging (Log DEBUG "Tray icon setup complete") ;;
  logging (Log DEBUG "Setting up UI") ;;
  update_template_list None ;;
  logging (Log DEBUG "UI setup complete").

(** [TemplaterApp()] in a process that finds [file] as [templates.json]:
    the object is new, its listbox is empty, nothing is logged yet. *)
Definition start (app_dir : string) (file : option string) : result unit * TemplaterApp :=
  init app_dir (mkApp [] [] file [] []).

(** The callbacks that the program hands to [self.root.after]. *)
Inductive callback : Type := ClearStatusMessage | UpdateUi.

(** [self.status_bar]: its text and its two colours. *)
Record StatusBar : Type := mkStatus {
  status_text : string;
  status_fg : string;
  status_bg : string
}.

(** What [copy_template] and the status messages write: the status bar,
    the pieces handed to the clipboard since it was last cleared, and the
    calls of [self.root.after] that wait, oldest first, each with its
    delay in milliseconds. [root_bg] is [self.root.cget("bg")]. *)
Record Gui : Type := mkGui {
  root_bg : string;
  status_bar : StatusBar;
  clipboard : list pyval;
  scheduled : list (nat * callback)
}.

(** [self.root.after(ms, callback)] *)
Definition after (ms : nat) (c : callback) (gui : Gui) : Gui :=
  mkGui (root_bg gui) (status_bar gui) (clipboard gui) (scheduled gui ++ [(ms, c)]).

(** [self.status_bar.config(text=..., fg=..., bg=...)] *)
Definition status_config (text fg bg : string) (gui : Gui) : Gui :=
  mkGui (root_bg gui) (mkStatus text fg bg) (clipboard gui) (scheduled gui).

(** [self.root.clipboard_clear()] *)
Definition clipboard_clear (gui : Gui) : Gui :=
  mkGui (root_bg gui) (status_bar gui) [] (scheduled gui).

(** [self.root.clipboard_append(value)] *)
Definition clipboard_append (value : pyval) (gui : Gui) : Gui :=
  mkGui (root_bg gui) (status_bar gui) (clipboard gui ++ [value]) (scheduled gui).

(** [TemplaterApp.show_status_message] *)
Definition show_status_message (message : string) (duration : nat) (gui : Gui) : Gui :=
  after duration ClearStatusMessage (status_config message "green" "lightgrey" gui).

(** [TemplaterApp.clear_status_message] *)
Definition clear_status_message (gui : Gui) : Gui :=
  status_config EmptyString "black" (root_bg gui) gui.

(** [TemplaterApp.update_ui]: [update_idletasks] leaves the state alone. *)
Definition update_ui (gui : Gui) : Gui := after 100 UpdateUi gui.

(** [TemplaterApp.copy_template]; [selected] is
    [self.template_listbox.curselection()]. The method reads the
    collection and writes no log. *)
Definition copy_template (selected : list Z) (app : TemplaterApp) (gui : Gui)
  : result unit * Gui :=
  match selected with
  | [] => (Returns tt, gui)
  | index :: _ =>
      match position (length (templates app)) index with
      | None => (Raises IndexError, gui)
      | Some i =>
          match templates app !! i with
          | Some template =>
              (Returns tt,
               show_status_message "Template copied to clipboard!" 2000
                 (clipboard_append (description template) (clipboard_clear gui)))
          | None => (Raises IndexError, gui)
          end
      end
  end.

(** *** The window at work

    [setup_ui] binds the buttons to [create_template], [edit_template],
    [search_templates] and [lambda: self.update_template_list()], and the
    double click on the listbox to [copy_template]. An action is one such
    event with what the user answers in it. *)
Inductive action : Type :=
| Create (dialog : option string)
| Edit (selected : list Z) (dialog : option string)
| Search (query : option string)
| ClearSearch
| Copy (selected : list Z).

(** The bound method runs. *)
Definition perform (a : action) (w : TemplaterApp * Gui)
  : result unit * (TemplaterApp * Gui) :=
  let (app, gui) := w in
  match a with
  | Create dialog =>
      let (r, app') := create_template dialog app in (r, (app', gui))
  | Edit selected dialog =>
      let (r, app') := edit_template selected dialog app in (r, (app', gui))
  | Search query =>
      let (r, app') := search_templates query app in (r, (app', gui))
  | ClearSearch =>
      let (r, app') := update_template_list None app in (r, (app', gui))
  | Copy selected =>
      let (r, gui') := copy_template selected app gui in (r, (app, gui'))
  end.

(** The actions of a session, one after the other. Tk reports an
    exception that leaves a callback and goes on with the next event. *)
Fixpoint session (actions : list action) (w : TemplaterApp * Gui)
  : list (result unit) * (TemplaterApp * Gui) :=
  match actions with
  | [] => ([], w)
  | a :: rest =>
      let (r, w') := perform a w in
      let (rs, w'') := session rest w' in
      (r :: rs, w'')
  end.

(** Every description is a text. *)
Definition is_text (t : Template) : bool :=
  match description t with
  | PStr _ => true
  | _ => false
  end.

Definition all_text (ts : list Template) : bool := forallb is_text ts.

(** A selection is made of rows of the listbox. *)
Definition in_listbox (selected : list Z) (app : TemplaterApp) : bool :=
  forallb (fun index => (0 <=? index)%Z
                        && (index <? Z.of_nat (length (template_listbox app)))%Z)
    selected.

(** The selection of the action, if it has one, is in the listbox. *)
Definition selection_ok (a : action) (app : TemplaterApp) : bool :=
  match a with
  | Edit selected _ => in_listbox selected app
  | Copy selected => in_listbox selected app
  | _ => true
  end.

(** Every action of the session finds its selection in the listbox of
    the moment. *)
Fixpoint selections_ok (actions : list action) (w : TemplaterApp * Gui) : Prop :=
  match actions with
  | [] => True
  | a :: rest => selection_ok a (fst w) = true /\ selections_ok rest (snd (perform a w))
  end.

(** The dialogs of the session that add a template: confirmed, with a
    text that is not blank. *)
Definition adds (a : action) : nat :=
  match a with
  | Create (Some text) => if Str.truthy (TemplateInputDialog.apply text) then 1 else 0
  | _ => 0
  end.

(** A start on the file of the state returns with the collection of the
    state: what is in memory is what is on disk. *)
Definition persisted (app_dir : string) (app : TemplaterApp) : Prop :=
  exists app', start app_dir (templates_json app) = (Returns tt, app')
               /\ templates app' = templates app.

(** The description is a text that is not empty and has no white space
    at its ends. *)
Definition clean (t : Template) : bool :=
  match description t with
  | PStr d => Str.truthy d && String.eqb (Str.strip d) d
  | _ => false
  end.

(** Every character is printable ASCII (U+0020 .. U+007E). *)
Fixpoint printable (s : string) : bool :=
  match s with
  | EmptyString => true
  | String c s' => Str.between 32 126 (Str.code c) && printable s'
  end.

(** The state of a window at work: the descriptions are texts, and the
    listbox has no more rows than the collection has templates. *)
Definition sound (app : TemplaterApp) : Prop :=
  all_text (templates app) = true
  /\ length (template_listbox app) <= length (templates app).

(** What an action does to a window whose collection is the texts [ds]
    and whose file is [file]: no error box comes up; the collection and
    the file are as before, or the collection is again made of texts and
    the file is what [json.dumps] gives for it; the collection grows by
    what the action adds; and when the selection of the action is in the
    listbox and the listbox is no longer than the collection, the action
    returns and the listbox is again no longer than the collection. *)
Definition text_step (ds rows : list string) (file : option string)
    (sh : list (string * exn)) (a : action)
    (out : result unit * (TemplaterApp * Gui)) : Prop :=
  let app' := fst (snd out) in
  shown app' = sh
  /\ ((templates app' = Doc.store ds /\ templates_json app' = file)
      \/ exists ds', templates app' = Doc.store ds'
                     /\ templates_json app' = Some (Json.dumps (Doc.records ds')))
  /\ (forall lg, selection_ok a (mkApp (Doc.store ds) rows file lg sh) = true ->
                 length rows <= length ds ->
                 fst out = Returns tt
                 /\ length (template_listbox app') <= length (templates app')).

(** ** Tactics *)

(** Projections of a state that is written out. *)
Ltac fields := cbn [fst snd templates template_listbox templates_json logged shown].

(** The steps of a method, unfolded. *)
Ltac run :=
  unfold load_templates, save_templates, update_template_list, search_templates,
    insert_if_selected, listbox_insert_end, set_templates, set_listbox, write_file,
    logging, showerror, read_file, try_except, except_Exception, raise, lift, gets,
    modify, mbind, py_bind, mret, py_ret;
  fields.

(** The four cases of [position]. *)
Ltac position_cases index n :=
  unfold position;
  destruct (Z.leb_spec 0 index);
  [destruct (Z.ltb_spec index (Z.of_nat n)) | destruct (Z.leb_spec (- Z.of_nat n) index)].

(** * Properties *)

(** ** Text *)

Section TextFacts.

Import Str.

Lemma append_nil_r (s : string) : s +:+ EmptyString = s.
Proof. induction s as [|c s IH]; simpl; [reflexivity | now rewrite IH]. Qed.

Lemma append_assoc (a b c : string) : (a +:+ b) +:+ c = a +:+ (b +:+ c).
Proof. induction a as [|x a IH]; simpl; [reflexivity | now rewrite IH]. Qed.

Lemma blank_lstrip (s : string) : blank (lstrip s) = blank s.
Proof.
  induction s as [|c s IH]; simpl; [reflexivity|].
  destruct (isspace c) eqn:Hc; simpl; [exact IH | now rewrite Hc].
Qed.

Lemma rstrip_empty (s : string) : rstrip s = EmptyString <-> blank s = true.
Proof.
  induction s as [|c s IH]; simpl; [tauto|].
  destruct (rstrip s) as [|d r] eqn:Hr.
  - destruct (isspace c); simpl; [tauto|].
    split; discriminate.
  - split; [discriminate|].
    intros H. apply andb_prop in H as [_ H].
    apply IH in H. discriminate.
Qed.

(** The stripped text is empty exactly when the text is white space
    only (the empty text included). *)
Lemma strip_empty (s : string) : strip s = EmptyString <-> blank s = true.
Proof. unfold strip. rewrite rstrip_empty, blank_lstrip. tauto. Qed.

Lemma truthy_strip (s : string) : truthy (strip s) = negb (blank s).
Proof.
  destruct (blank s) eqn:Hb.
  - apply strip_empty in Hb. now rewrite Hb.
  - destruct (strip s) eqn:Hs; [|reflexivity].
    apply strip_empty in Hs. congruence.
Qed.



End TextFacts.

(** ** Stripping *)

Section StripFacts.

Import Str.

Lemma lstrip_split (s : string) :
  exists pre, s = pre +:+ lstrip s /\ blank pre = true.
Proof.
  induction s as [|c s (pre & IH & Hb)]; [exists EmptyString; auto|].
  simpl. destruct (isspace c) eqn:Hc.
  - exists (String c pre). simpl. rewrite Hc, Hb. split; [now rewrite <- IH | reflexivity].
  - exists EmptyString. auto.
Qed.

Lemma lstrip_head (s : string) (c : ascii) (r : string) :
  lstrip s = String c r -> isspace c = false.
Proof.
  induction s as [|a s IH]; simpl; [discriminate|].
  destruct (isspace a) eqn:Ha; [exact IH | intros [= <- _]; exact Ha].
Qed.

Lemma rstrip_split (s : string) :
  exists post, s = rstrip s +:+ post /\ blank post = true.
Proof.
  induction s as [|c s (post & IH & Hb)]; [exists EmptyString; auto|].
  simpl. destruct (rstrip s) as [|b r] eqn:Hr.
  - destruct (isspace c) eqn:Hc.
    + exists (String c post). simpl in *. rewrite Hc, Hb. split; [now rewrite <- IH | reflexivity].
    + exists post. simpl in *. split; [now rewrite <- IH | exact Hb].
  - exists post. simpl in *. split; [now rewrite <- IH | exact Hb].
Qed.

Lemma rstrip_head (s : string) (c : ascii) (r : string) :
  rstrip s = String c r -> exists r0, s = String c r0.
Proof.
  destruct s as [|a s]; simpl; [discriminate|].
  destruct (rstrip s); [destruct (isspace a)|]; intros [= <- _] || discriminate; eauto.
Qed.

Lemma rstrip_last (s : string) :
  forall (init : string) (c : ascii),
    rstrip s = init +:+ String c EmptyString -> isspace c = false.
Proof.
  induction s as [|a s IH]; intros init c; simpl.
  - destruct init; discriminate.
  - destruct (rstrip s) as [|b r] eqn:Hr.
    + destruct (isspace a) eqn:Ha.
      * destruct init; discriminate.
      * destruct init as [|x [|y init]]; simpl; try discriminate.
        intros [= <-]. exact Ha.
    + destruct init as [|x init]; simpl.
      * discriminate.
      * intros [= _ H]. now apply (IH init c).
Qed.

Lemma rstrip_rstrip (s : string) : rstrip (rstrip s) = rstrip s.
Proof.
  induction s as [|a s IH]; [reflexivity|].
  simpl. destruct (rstrip s) as [|b r] eqn:Hr.
  - destruct (isspace a) eqn:Ha; simpl; [reflexivity | now rewrite Ha].
  - change (rstrip (String a (String b r)))
      with (match rstrip (String b r) with
            | EmptyString => if isspace a then EmptyString else String a EmptyString
            | String _ _ as r' => String a r'
            end).
    now rewrite IH.
Qed.

Lemma lstrip_fixed (s : string) :
  (forall c r, s = String c r -> isspace c = false) -> lstrip s = s.
Proof.
  destruct s as [|c r]; [reflexivity|].
  intros H. simpl. now rewrite (H c r eq_refl).
Qed.

Lemma strip_head (s : string) (c : ascii) (r : string) :
  strip s = String c r -> isspace c = false.
Proof.
  unfold strip. intros H. destruct (rstrip_head _ _ _ H) as [r0 H0].
  now apply lstrip_head in H0.
Qed.

Lemma strip_strip (s : string) : strip (strip s) = strip s.
Proof.
  unfold strip at 1. rewrite (lstrip_fixed (strip s)) by apply strip_head.
  unfold strip. apply rstrip_rstrip.
Qed.

Lemma strip_split (s : string) :
  exists pre post, s = pre +:+ strip s +:+ post /\ blank pre = true /\ blank post = true.
Proof.
  destruct (lstrip_split s) as (pre & Hs & Hpre).
  destruct (rstrip_split (lstrip s)) as (post & Hl & Hpost).
  exists pre, post. unfold strip. now rewrite <- Hl, <- Hs.
Qed.

End StripFacts.

(** ** The documents that [save_templates] writes are read back *)

Section JsonFacts.

Import Json Doc.

(** Reading the replacement of a character gives the character. *)
Lemma scanstring_escape_char (c : ascii) (t : string) :
  scanstring (escape_char c +:+ t) = pmap (String c) (scanstring t).
Proof.
  destruct c as [b0 b1 b2 b3 b4 b5 b6 b7].
  destruct b0, b1, b2, b3, b4, b5, b6, b7; reflexivity.
Qed.

Lemma scanstring_escape (s rest : string) :
  scanstring (escape s +:+ String quote rest) = Ok true s rest.
Proof.
  induction s as [|c s IH]; [reflexivity|].
  simpl escape. rewrite append_assoc, scanstring_escape_char, IH. reflexivity.
Qed.

Lemma record_text_eq (d rest : string) :
  record_text d +:+ rest =
  String "{" (String quote ("description" +:+ String quote (": " +:+
    String quote (escape d +:+ String quote (String "}" rest))))).
Proof.
  unfold record_text, to_dict, dumps, encode_str. simpl.
  rewrite !append_assoc. simpl. reflexivity.
Qed.

Lemma value_record (n room : nat) (d rest : string) :
  value (3 + n) (S room) (record_text d +:+ rest)
  = Ok true (to_dict (mkTemplate (PStr d))) rest.
Proof.
  rewrite record_text_eq.
  unfold quote. simpl.
  change "034"%char with quote.
  rewrite scanstring_escape. reflexivity.
Qed.

Lemma length_append (a b : string) :
  String.length (a +:+ b) = String.length a + String.length b.
Proof. induction a as [|c a IH]; simpl; [reflexivity | now rewrite IH]. Qed.

Lemma record_text_length (d : string) : 2 <= String.length (record_text d).
Proof. pose proof (record_text_eq d EmptyString) as H. rewrite append_nil_r in H. rewrite H. simpl. lia. Qed.

Lemma records_text_cons (d : string) (ds : list string) (rest : string) :
  records_text (d :: ds) +:+ rest =
  record_text d +:+
    match ds with
    | [] => rest
    | _ :: _ => String "," (String " " (records_text ds +:+ rest))
    end.
Proof.
  unfold records_text. destruct ds as [|d' ds]; simpl; [reflexivity|].
  now rewrite !append_assoc.
Qed.

Lemma records_text_length (ds : list string) :
  2 * length ds <= String.length (records_text ds).
Proof.
  induction ds as [|d ds IH]; [simpl; lia|].
  pose proof (records_text_cons d ds EmptyString) as H.
  rewrite append_nil_r in H. rewrite H, length_append.
  pose proof (record_text_length d).
  destruct ds; simpl in *; [lia|].
  rewrite append_nil_r. lia.
Qed.

Lemma record_text_head (d rest : string) :
  exists t, record_text d +:+ rest = String "{" t.
Proof. rewrite record_text_eq. eauto. Qed.

Lemma elements_records (ds : list string) :
  forall (n room : nat) (d : string) (acc : list pyval) (rest : string),
    length ds <= n ->
    elements (4 + n) (S room) (records_text (d :: ds) +:+ String "]" rest) acc true =
    Ok true (PList (acc ++ map (fun d => to_dict (mkTemplate (PStr d))) (d :: ds))) rest.
Proof.
  induction ds as [|d' ds IH]; intros n room d acc rest Hn.
  - rewrite records_text_cons.
    change (elements (4 + n)) with (elements (S (3 + n))).
    cbn [elements]. rewrite value_record. reflexivity.
  - destruct n as [|n]; [simpl in Hn; lia|].
    rewrite records_text_cons.
    change (elements (4 + S n)) with (elements (S (3 + S n))).
    cbn [elements]. rewrite value_record.
    cbn [skip_ws is_ws eqc Ascii.eqb Bool.eqb orb].
    destruct (record_text_head d' (match ds with [] => String "]" rest | _ => String "," (String " " (records_text ds +:+ String "]" rest)) end)) as [t Ht].
    rewrite <- records_text_cons in Ht.
    rewrite Ht. cbn [skip_ws is_ws eqc Ascii.eqb Bool.eqb orb]. rewrite <- Ht.
    change (3 + S n) with (4 + n).
    rewrite IH by (simpl in Hn; lia).
    rewrite <- app_assoc. reflexivity.
Qed.

Lemma dumps_records (d : string) (ds : list string) :
  dumps (records (d :: ds)) = String "[" (records_text (d :: ds) +:+ String "]" EmptyString).
Proof.
  unfold records, store, records_text, record_text.
  cbn [dumps]. rewrite !map_map. reflexivity.
Qed.

(** [json.loads(json.dumps(records))] is [records]. *)
Lemma loads_dumps_records (ds : list string) :
  loads (dumps (records ds)) = Document (records ds).
Proof.
  destruct ds as [|d ds]; [reflexivity|].
  rewrite dumps_records. unfold loads.
  set (body := records_text (d :: ds) +:+ String "]" EmptyString).
  assert (Hlen : exists n, 2 * String.length (String "[" body) = 4 + n /\ length ds <= n).
  { exists (2 * String.length (String "[" body) - 4).
    subst body. simpl String.length. rewrite length_append.
    pose proof (records_text_length (d :: ds)) as H. simpl in H |- *. lia. }
  destruct Hlen as (n & -> & Hn).
  destruct (record_text_head d (match ds with [] => String "]" EmptyString | _ => String "," (String " " (records_text ds +:+ String "]" EmptyString)) end)) as [t Ht].
  rewrite <- records_text_cons in Ht. fold body in Ht.
  rewrite Ht.
  change nesting with (S (S 98)).
  cbn [skip_ws is_ws eqc Ascii.eqb Bool.eqb orb value].
  unfold quote.
  cbn [skip_ws is_ws eqc Ascii.eqb Bool.eqb orb value].
  rewrite <- Ht. subst body.
  rewrite elements_records by exact Hn.
  unfold records, store. rewrite map_map. reflexivity.
Qed.

(** *** The fuel of [loads] is enough *)

Lemma skip_ws_length (s : string) : String.length (skip_ws s) <= String.length s.
Proof.
  induction s as [|c s IH]; simpl; [lia|].
  destruct (is_ws c); simpl; lia.
Qed.

Lemma skip_ws_cons (s : string) (d : ascii) (r : string) :
  skip_ws s = String d r -> String.length r < String.length s.
Proof.
  intros H. pose proof (skip_ws_length s) as Hl. rewrite H in Hl. simpl in Hl. lia.
Qed.

Lemma pmap_Ok {A B : Type} (f : A -> B) (p : parse A) (e : bool) (b : B) (r : string) :
  pmap f p = Ok e b r -> exists a, p = Ok e a r.
Proof. destruct p as [e' x rest| | | |]; simpl; [intros [= <- _ <-]; eauto | discriminate..]. Qed.

Lemma inexact_Ok {A : Type} (p : parse A) (e : bool) (a : A) (r : string) :
  inexact p = Ok e a r -> exists e', p = Ok e' a r.
Proof. destruct p as [e' x rest| | | |]; simpl; [intros [= _ <- <-]; eauto | discriminate..]. Qed.

Lemma inexact_NoFuel {A : Type} (p : parse A) : inexact p = NoFuel -> p = NoFuel.
Proof. destruct p; simpl; congruence. Qed.

Lemma pmap_NoFuel {A B : Type} (f : A -> B) (p : parse A) :
  pmap f p = NoFuel -> p = NoFuel.
Proof. destruct p; simpl; congruence. Qed.

Lemma scanstring_bound (n : nat) :
  forall s : string,
    String.length s <= n ->
    scanstring s <> NoFuel
    /\ forall (e : bool) (a r : string),
         scanstring s = Ok e a r -> String.length r < String.length s.
Proof.
  induction n as [|n IH]; intros s Hn.
  - destruct s; [|simpl in Hn; lia]. split; simpl; discriminate.
  - destruct s as [|c s']; [split; simpl; discriminate|].
    simpl in Hn. cbn [scanstring].
    destruct (eqc c quote).
    { split; [discriminate|]. intros e a r [= _ _ <-]. simpl. lia. }
    destruct (eqc c "\").
    { destruct s' as [|e s'']; [split; discriminate|].
      destruct (eqc e "u").
      - destruct s'' as [|h1 [|h2 [|h3 [|h4 s5]]]]; try (split; discriminate).
        destruct (hex4 h1 h2 h3 h4) as [m|]; [|split; discriminate].
        simpl in Hn. destruct (IH s5 ltac:(lia)) as [H1 H2].
        destruct (m <? 256)%N; split.
        + intros H. now apply pmap_NoFuel in H.
        + intros ex x r H. apply pmap_Ok in H as [x' H]. apply H2 in H. simpl. lia.
        + intros H. apply inexact_NoFuel in H. now apply pmap_NoFuel in H.
        + intros ex x r H. apply inexact_Ok in H as [ex' H].
          apply pmap_Ok in H as [x' H]. apply H2 in H. simpl. lia.
      - destruct (unescape e) as [ch|]; [|split; discriminate].
        simpl in Hn. destruct (IH s'' ltac:(lia)) as [H1 H2]. split.
        + intros H. now apply pmap_NoFuel in H.
        + intros ex x r H. apply pmap_Ok in H as [x' H]. apply H2 in H. simpl. lia. }
    destruct (Str.code c <? 32)%N; [split; discriminate|].
    destruct (IH s' ltac:(lia)) as [H1 H2]. split.
    + intros H. now apply pmap_NoFuel in H.
    + intros ex x r H. apply pmap_Ok in H as [x' H]. apply H2 in H. simpl. lia.
Qed.

Lemma scanstring_fuel (s : string) : scanstring s <> NoFuel.
Proof. now apply (scanstring_bound (String.length s)). Qed.

Lemma scanstring_rest (e : bool) (s a r : string) :
  scanstring s = Ok e a r -> String.length r < String.length s.
Proof. now apply (scanstring_bound (String.length s)). Qed.

Lemma digits_rest (s : string) :
  forall (acc z : Z) (count k : N) (r : string),
    digits acc count s = (z, k, r) -> String.length r <= String.length s.
Proof.
  induction s as [|c s IH]; intros acc z count k r; simpl.
  - intros [= _ _ <-]. simpl. lia.
  - destruct (is_digit c).
    + intros H. apply IH in H. lia.
    + intros [= _ _ <-]. simpl. lia.
Qed.

Lemma skip_digits_length (s : string) :
  String.length (skip_digits s) <= String.length s.
Proof.
  induction s as [|c s IH]; simpl; [lia|].
  destruct (is_digit c); simpl; lia.
Qed.

Lemma fraction_rest (s r : string) :
  fraction s = Some r -> String.length r < String.length s.
Proof.
  unfold fraction. destruct s as [|c [|d s']]; try discriminate.
  destruct (eqc c "." && is_digit d); [|discriminate].
  intros [= <-]. pose proof (skip_digits_length s'). simpl. lia.
Qed.

Lemma exponent_rest (s r : string) :
  exponent s = Some r -> String.length r < String.length s.
Proof.
  unfold exponent. destruct s as [|c s']; [discriminate|].
  destruct (eqc c "e" || eqc c "E"); [|discriminate].
  destruct s' as [|g t]; [discriminate|].
  destruct (eqc g "+" || eqc g "-").
  - destruct t as [|d t']; [discriminate|].
    destruct (is_digit d); [|discriminate].
    intros [= <-]. pose proof (skip_digits_length t'). simpl. lia.
  - destruct (is_digit g); [|discriminate].
    intros [= <-]. pose proof (skip_digits_length t). simpl. lia.
Qed.

Lemma float_tail_rest (s r : string) :
  float_tail s = Some r -> String.length r < String.length s.
Proof.
  unfold float_tail. destruct (fraction s) as [r1|] eqn:Hf.
  - apply fraction_rest in Hf.
    destruct (exponent r1) as [r2|] eqn:He.
    + apply exponent_rest in He. intros [= <-]. lia.
    + intros [= <-]. exact Hf.
  - apply exponent_rest.
Qed.

Lemma scan_unsigned_bound (negative : bool) (s : string) :
  scan_unsigned negative s <> NoFuel
  /\ forall (e : bool) (v : pyval) (r : string),
       scan_unsigned negative s = Ok e v r -> String.length r < String.length s.
Proof.
  unfold scan_unsigned. destruct s as [|c s']; [split; discriminate|].
  destruct (is_digit c) eqn:Hc; [|split; discriminate].
  assert (Hrest : forall (z : Z) (k : N) (rest : string),
             String.length rest <= String.length s' ->
             match float_tail rest with
             | Some rest' => Ok false PNone rest'
             | None =>
                 if (max_str_digits <? k)%N then TooLong
                 else Ok true (PInt (if negative then - z else z)) rest
             end <> NoFuel
             /\ forall (e : bool) (v : pyval) (r : string),
                  match float_tail rest with
                  | Some rest' => Ok false PNone rest'
                  | None =>
                      if (max_str_digits <? k)%N then TooLong
                      else Ok true (PInt (if negative then - z else z)) rest
                  end = Ok e v r -> String.length r < String.length (String c s')).
  { intros z k rest Hl. destruct (float_tail rest) as [rest'|] eqn:Hf.
    - apply float_tail_rest in Hf. split; [discriminate|].
      intros e v r [= _ _ <-]. simpl. lia.
    - destruct (max_str_digits <? k)%N; split; try discriminate.
      intros e v r [= _ _ <-]. simpl. lia. }
  destruct (eqc c "0").
  - apply Hrest. lia.
  - destruct (digits 0 0 (String c s')) as [[z k] rest] eqn:Hd.
    simpl in Hd. rewrite Hc in Hd. apply digits_rest in Hd.
    apply Hrest. exact Hd.
Qed.

Lemma scan_number_bound (s : string) :
  scan_number s <> NoFuel
  /\ forall (e : bool) (v : pyval) (r : string),
       scan_number s = Ok e v r -> String.length r < String.length s.
Proof.
  unfold scan_number. destruct s as [|c s']; [split; discriminate|].
  destruct (eqc c "-").
  - destruct (scan_unsigned_bound true s') as [H1 H2]. split; [exact H1|].
    intros e v r H. apply H2 in H. simpl. lia.
  - apply scan_unsigned_bound.
Qed.

Lemma drop_cons_length (n : nat) (c : ascii) (s : string) :
  String.length (drop (S n) (String c s)) < String.length (String c s).
Proof.
  simpl. revert s. induction n as [|n IH]; intros s; destruct s; simpl; try lia.
  specialize (IH s). lia.
Qed.

(** With fuel above twice the length of the text the parser does not
    run out of it, and what it leaves is shorter than what it got. *)
Lemma parser_bound (n : nat) :
  (forall (room : nat) (s : string),
      2 * String.length s < n ->
      value n room s <> NoFuel
      /\ forall e v r, value n room s = Ok e v r -> String.length r < String.length s)
  /\ (forall (room : nat) (s : string) (acc : list pyval) (exact : bool),
        2 * String.length s + 1 < n ->
        elements n room s acc exact <> NoFuel
        /\ forall e v r,
             elements n room s acc exact = Ok e v r -> String.length r < String.length s)
  /\ (forall (room : nat) (s : string) (acc : list (string * pyval)) (exact : bool),
        2 * String.length s + 1 < n ->
        members n room s acc exact <> NoFuel
        /\ forall e v r,
             members n room s acc exact = Ok e v r -> String.length r < String.length s).
Proof.
  induction n as [|n (IHv & IHe & IHm)]; [repeat split; intros; lia|].
  split; [|split].
  - intros room s Hn. cbn [value]. destruct s as [|c s']; [split; discriminate|].
    cbn [String.length] in Hn.
    destruct (eqc c quote).
    { split.
      - intros H. apply pmap_NoFuel in H. now apply scanstring_fuel in H.
      - intros e v r H. apply pmap_Ok in H as [x H]. apply scanstring_rest in H.
        cbn [String.length]. lia. }
    destruct (eqc c "{").
    { destruct room as [|room]; [split; discriminate|].
      destruct (skip_ws s') as [|d r] eqn:Hs; [split; discriminate|].
      apply skip_ws_cons in Hs.
      destruct (eqc d "}").
      { split; [discriminate|]. intros e v r0 [= _ _ <-]. cbn [String.length]. lia. }
      destruct (eqc d quote); [|split; discriminate].
      destruct (IHm room r [] true ltac:(lia)) as [H1 H2]. split; [exact H1|].
      intros e v r0 H. apply H2 in H. cbn [String.length]. lia. }
    destruct (eqc c "[").
    { destruct room as [|room]; [split; discriminate|].
      destruct (skip_ws s') as [|d r] eqn:Hs; [split; discriminate|].
      apply skip_ws_cons in Hs.
      destruct (eqc d "]").
      { split; [discriminate|]. intros e v r0 [= _ _ <-]. cbn [String.length]. lia. }
      destruct (IHe room (String d r) [] true ltac:(cbn [String.length]; lia)) as [H1 H2].
      split; [exact H1|].
      intros e v r0 H. apply H2 in H. cbn [String.length] in *. lia. }
    destruct (Str.startswith "null" (String c s')).
    { split; [discriminate|]. intros e v r [= _ _ <-]. exact (drop_cons_length 3 c s'). }
    destruct (Str.startswith "true" (String c s')).
    { split; [discriminate|]. intros e v r [= _ _ <-]. exact (drop_cons_length 3 c s'). }
    destruct (Str.startswith "false" (String c s')).
    { split; [discriminate|]. intros e v r [= _ _ <-]. exact (drop_cons_length 4 c s'). }
    destruct (Str.startswith "NaN" (String c s')).
    { split; [discriminate|]. intros e v r [= _ _ <-]. exact (drop_cons_length 2 c s'). }
    destruct (Str.startswith "Infinity" (String c s')).
    { split; [discriminate|]. intros e v r [= _ _ <-]. exact (drop_cons_length 7 c s'). }
    destruct (Str.startswith "-Infinity" (String c s')).
    { split; [discriminate|]. intros e v r [= _ _ <-]. exact (drop_cons_length 8 c s'). }
    apply scan_number_bound.
  - intros room s acc exact Hn. cbn [elements].
    destruct (IHv room s ltac:(lia)) as [H1 H2].
    destruct (value n room s) as [e v r| | | |] eqn:Hv; try (split; discriminate);
      [|contradiction].
    specialize (H2 e v r eq_refl).
    destruct (skip_ws r) as [|d r'] eqn:Hs; [split; discriminate|].
    apply skip_ws_cons in Hs.
    destruct (eqc d "]").
    { split; [discriminate|]. intros e0 w r0 [= _ _ <-]. lia. }
    destruct (eqc d ","); [|split; discriminate].
    pose proof (skip_ws_length r') as Hr'.
    destruct (IHe room (skip_ws r') (acc ++ [v]) (exact && e) ltac:(lia)) as [H3 H4].
    split; [exact H3|]. intros e0 w r0 H. apply H4 in H. lia.
  - intros room s acc exact Hn. cbn [members].
    pose proof (scanstring_fuel s) as Hf.
    destruct (scanstring s) as [ek k r| | | |] eqn:Hk; try (split; discriminate);
      [|contradiction].
    apply scanstring_rest in Hk.
    destruct (skip_ws r) as [|d r'] eqn:Hs; [split; discriminate|].
    apply skip_ws_cons in Hs.
    destruct (eqc d ":"); [|split; discriminate].
    pose proof (skip_ws_length r') as Hr'.
    destruct (IHv room (skip_ws r') ltac:(lia)) as [H1 H2].
    destruct (value n room (skip_ws r')) as [ev v r2| | | |] eqn:Hv;
      try (split; discriminate); [|contradiction].
    specialize (H2 ev v r2 eq_refl).
    destruct (skip_ws r2) as [|d2 r3] eqn:Hs2; [split; discriminate|].
    apply skip_ws_cons in Hs2.
    destruct (eqc d2 "}").
    { split; [discriminate|]. intros e0 w r0 [= _ _ <-]. lia. }
    destruct (eqc d2 ","); [|split; discriminate].
    destruct (skip_ws r3) as [|d3 r4] eqn:Hs3; [split; discriminate|].
    apply skip_ws_cons in Hs3.
    destruct (eqc d3 quote); [|split; discriminate].
    destruct (IHm room r4 (dict_set k v acc) (exact && ek && ev) ltac:(lia)) as [H3 H4].
    split; [exact H3|]. intros e0 w r0 H. apply H4 in H. lia.
Qed.

(** The parser of [loads] does not run out of fuel: [Beyond] is the
    answer for a float, an escape above 00ff or a nesting deeper than
    [nesting] only. *)
Lemma loads_fuel (text : string) :
  value (S (2 * String.length text)) nesting (skip_ws text) <> NoFuel.
Proof.
  apply parser_bound. pose proof (skip_ws_length text). lia.
Qed.

End JsonFacts.

(** ** The codec *)

Lemma from_dict_to_dict (t : Template) : from_dict (to_dict t) = Returns t.
Proof. destruct t as [d]. reflexivity. Qed.

Lemma comprehension_to_dict (ts : list Template) :
  comprehension from_dict (map to_dict ts) = Returns ts.
Proof.
  induction ts as [|t ts IH]; [reflexivity|].
  cbn [map comprehension]. now rewrite from_dict_to_dict, IH.
Qed.

Lemma iterate_raises (v : pyval) (e : exn) : iterate v = Raises e -> e = TypeError.
Proof. destruct v; simpl; congruence. Qed.

Lemma from_dict_raises (v : pyval) (e : exn) :
  from_dict v = Raises e -> e = KeyError \/ e = TypeError.
Proof.
  unfold from_dict, getitem_str. destruct v; try (intros [= <-]; auto).
  destruct (dict_get "description" items); intros [= <-]; auto.
Qed.

Lemma comprehension_raises (items : list pyval) (e : exn) :
  comprehension from_dict items = Raises e -> e = KeyError \/ e = TypeError.
Proof.
  induction items as [|v items IH]; simpl; [discriminate|].
  destruct (from_dict v) eqn:Hv.
  - destruct (comprehension from_dict items); [discriminate|].
    intros [= <-]. now apply IH.
  - intros [= <-]. now apply from_dict_raises in Hv.
Qed.

(** ** The steps of a method *)

(** One step of a sequence: the state after [m] is the state before [k]. *)
Lemma bind_run {A B : Type} (m : py A) (k : A -> py B) (app : TemplaterApp) :
  (m ≫= k) app =
  match m app with
  | (Returns a, app') => k a app'
  | (Raises e, app') => (Raises e, app')
  end.
Proof. reflexivity. Qed.

(** ** Loading *)

Lemma load_templates_missing (ts : list Template) (rows : list string)
    (lg : list log_record) (sh : list (string * exn)) :
  load_templates (mkApp ts rows None lg sh) =
  (Returns tt,
   mkApp [] rows None
     (lg ++ [Log DEBUG "Loading templates";
             Log WARNING "templates.json not found, starting with empty list"]) sh).
Proof. run. now rewrite <- app_assoc. Qed.

Lemma load_templates_malformed (text : string) (ts : list Template) (rows : list string)
    (lg : list log_record) (sh : list (string * exn)) :
  Json.loads text = Json.Malformed ->
  load_templates (mkApp ts rows (Some text) lg sh) =
  (Returns tt,
   mkApp [] rows (Some text)
     (lg ++ [Log DEBUG "Loading templates";
             Log ERROR "Error decoding templates.json, starting with empty list"]) sh).
Proof. intros H. run. unfold json_load. rewrite H. fields. now rewrite <- app_assoc. Qed.

Lemma load_templates_document (text : string) (v : pyval) (ts : list Template)
    (rows : list string) (lg : list log_record) (sh : list (string * exn)) :
  Json.loads text = Json.Document v ->
  load_templates (mkApp ts rows (Some text) lg sh) =
  match iterate v with
  | Returns items =>
      match comprehension from_dict items with
      | Returns ts' =>
          (Returns tt,
           mkApp ts' rows (Some text)
             (lg ++ [Log DEBUG "Loading templates";
                     Log DEBUG ("Loaded " +:+ Str.of_nat (length ts') +:+ " templates")]) sh)
      | Raises e => (Raises e, mkApp ts rows (Some text) (lg ++ [Log DEBUG "Loading templates"]) sh)
      end
  | Raises e => (Raises e, mkApp ts rows (Some text) (lg ++ [Log DEBUG "Loading templates"]) sh)
  end.
Proof.
  intros H. run. unfold json_load. rewrite H. fields.
  destruct (iterate v) as [items|e] eqn:Hi.
  2:{ apply iterate_raises in Hi as ->. reflexivity. }
  destruct (comprehension from_dict items) as [ts'|e] eqn:Hc.
  2:{ apply comprehension_raises in Hc as [-> | ->]; reflexivity. }
  fields. now rewrite <- app_assoc.
Qed.

(** ** Saving *)

Lemma save_templates_run (ts : list Template) (rows : list string) (file : option string)
    (lg : list log_record) (sh : list (string * exn)) :
  save_templates (mkApp ts rows file lg sh) =
  (Returns tt,
   mkApp ts rows (Some (Json.dumps (PList (map to_dict ts))))
     (lg ++ [Log DEBUG "Saving templates";
             Log DEBUG ("Saved " +:+ Str.of_nat (length ts) +:+ " templates")]) sh).
Proof. run. now rewrite <- app_assoc. Qed.

(** ** Filling the listbox *)

(** A turn of the loop touches the rows only, also when it raises, and
    it raises nothing but [TypeError] and [AttributeError]. *)
Lemma insert_if_selected_frame (query : option string) (t : Template)
    (ts : list Template) (rows : list string) (file : option string)
    (lg : list log_record) (sh : list (string * exn)) :
  exists r rows',
    insert_if_selected query t (mkApp ts rows file lg sh) = (r, mkApp ts rows' file lg sh)
    /\ (r = Returns tt \/ r = Raises TypeError \/ r = Raises AttributeError).
Proof.
  run. unfold selected_by, lower_of, row_of.
  destruct query as [q|]; destruct (description t); fields; eauto 8;
    destruct (Str.contains (Str.lower q) (Str.lower s)); fields; eauto 8.
Qed.

Lemma for_each_frame (query : option string) (loop : list Template) :
  forall (ts : list Template) (rows : list string) (file : option string)
         (lg : list log_record) (sh : list (string * exn)),
  exists r rows',
    for_each loop (insert_if_selected query) (mkApp ts rows file lg sh)
    = (r, mkApp ts rows' file lg sh)
    /\ (r = Returns tt \/ r = Raises TypeError \/ r = Raises AttributeError).
Proof.
  induction loop as [|t loop IH]; intros ts rows file lg sh.
  - exists (Returns tt), rows. auto.
  - cbn [for_each]. rewrite bind_run.
    destruct (insert_if_selected_frame query t ts rows file lg sh)
      as (r & rows' & -> & [-> | [-> | ->]]); [apply IH | eauto 8 | eauto 8].
Qed.

(** [update_template_list] leaves the collection, the file and the
    error boxes as they are, also when it raises. *)
Lemma update_template_list_frame (query : option string) (ts : list Template)
    (rows : list string) (file : option string) (lg : list log_record)
    (sh : list (string * exn)) :
  exists r rows' tail,
    update_template_list query (mkApp ts rows file lg sh)
    = (r, mkApp ts rows' file (lg ++ tail) sh)
    /\ (r = Returns tt \/ r = Raises TypeError \/ r = Raises AttributeError).
Proof.
  unfold update_template_list. rewrite !bind_run.
  unfold logging, set_listbox, modify, gets. fields. rewrite !bind_run. fields.
  destruct (for_each_frame query ts ts [] file (lg ++ [Log DEBUG "Updating template list"]) sh)
    as (r & rows' & -> & [-> | [-> | ->]]); fields.
  - rewrite bind_run. fields. rewrite <- app_assoc. eauto 8.
  - eauto 8.
  - eauto 8.
Qed.

(** A turn of the loop on a text description. *)
Lemma insert_if_selected_text (query : option string) (d : string)
    (ts : list Template) (rows : list string) (file : option string)
    (lg : list log_record) (sh : list (string * exn)) :
  insert_if_selected query (mkTemplate (PStr d)) (mkApp ts rows file lg sh)
  = (Returns tt,
     mkApp ts (rows ++ if Doc.keeps query d then [Doc.row d] else []) file lg sh).
Proof.
  run. unfold selected_by, lower_of, Doc.keeps. cbn [description].
  destruct query as [q|]; [destruct (Str.contains (Str.lower q) (Str.lower d))|];
    fields; now rewrite ?app_nil_r.
Qed.

(** On text descriptions the loop appends the rows of the kept ones. *)
Lemma for_each_store (query : option string) (ds : list string) :
  forall (ts : list Template) (rows : list string) (file : option string)
         (lg : list log_record) (sh : list (string * exn)),
    for_each (Doc.store ds) (insert_if_selected query) (mkApp ts rows file lg sh)
    = (Returns tt,
       mkApp ts (rows ++ map Doc.row (List.filter (Doc.keeps query) ds)) file lg sh).
Proof.
  induction ds as [|d ds IH]; intros ts rows file lg sh.
  - cbn. now rewrite app_nil_r.
  - cbn [Doc.store map for_each List.filter]. fold (Doc.store ds).
    rewrite bind_run, insert_if_selected_text, IH.
    destruct (Doc.keeps query d); cbn [map]; now rewrite <- app_assoc.
Qed.

Lemma update_template_list_store (query : option string) (ds : list string)
    (rows : list string) (file : option string) (lg : list log_record)
    (sh : list (string * exn)) :
  update_template_list query (mkApp (Doc.store ds) rows file lg sh) =
  (Returns tt,
   mkApp (Doc.store ds) (map Doc.row (List.filter (Doc.keeps query) ds)) file
     (lg ++ [Log DEBUG "Updating template list";
             Log DEBUG ("Added "
                        +:+ Str.of_nat (length (List.filter (Doc.keeps query) ds))
                        +:+ " templates to the listbox")]) sh).
Proof.
  unfold update_template_list. rewrite !bind_run.
  unfold logging, set_listbox, modify, gets. fields. rewrite !bind_run. fields.
  rewrite for_each_store. fields. rewrite bind_run. fields.
  cbn [app]. rewrite length_map, <- app_assoc. reflexivity.
Qed.

(** ** The pairs of the search *)

Lemma filter_sublist {A : Type} (f : A -> bool) (l : list A) :
  sublist (List.filter f l) l.
Proof.
  induction l as [|x l IH]; simpl; [constructor|].
  destruct (f x); now constructor.
Qed.

Lemma filter_combine_snd (f : string -> bool) (ds : list string) :
  forall k : nat,
    map snd (List.filter (fun p : nat * string => f (snd p)) (combine (seq k (length ds)) ds))
    = List.filter f ds.
Proof.
  induction ds as [|d ds IH]; intros k; [reflexivity|].
  cbn [length seq combine List.filter snd].
  destruct (f d); cbn [map snd]; now rewrite IH.
Qed.

Lemma search_descriptions (query : option string) (ds : list string) :
  map snd (Doc.search query ds) = List.filter (Doc.keeps query) ds.
Proof. apply filter_combine_snd. Qed.

(** ** Creating and editing *)

(** The end of both actions: the new collection is stored and saved; the
    listbox is filled again, and an exception of that last step ends in
    the error box, with the collection and the file already changed. *)
Lemma commit_run (done log_msg box_msg : string) (ts' ts : list Template)
    (rows : list string) (file : option string) (lg : list log_record)
    (sh : list (string * exn)) :
  exists rows' tail sh',
    try_except
      (set_templates ts' ;; save_templates ;; update_template_list None ;;
       logging (Log DEBUG done))
      (except_Exception (fun e => logging (LogExc log_msg e) ;; showerror box_msg e))
      (mkApp ts rows file lg sh)
    = (Returns tt,
       mkApp ts' rows' (Some (Json.dumps (PList (map to_dict ts'))))
         (lg ++ [Log DEBUG "Saving templates";
                 Log DEBUG ("Saved " +:+ Str.of_nat (length ts') +:+ " templates")] ++ tail)
         sh').
Proof.
  unfold try_except. rewrite bind_run. unfold set_templates, modify. fields.
  rewrite bind_run, save_templates_run, bind_run.
  destruct (update_template_list_frame None ts' rows
              (Some (Json.dumps (PList (map to_dict ts'))))
              (lg ++ [Log DEBUG "Saving templates";
                      Log DEBUG ("Saved " +:+ Str.of_nat (length ts') +:+ " templates")]) sh)
    as (r & rows' & tail & -> & [-> | [-> | ->]]);
    unfold except_Exception, logging, showerror, modify; rewrite ?bind_run; fields;
    rewrite <- !app_assoc; eauto.
Qed.

Lemma try_gets {A B : Type} (f : TemplaterApp -> A) (k : A -> py B)
    (handler : exn -> option (py B)) (app : TemplaterApp) :
  try_except (gets f ≫= k) handler app = try_except (k (f app)) handler app.
Proof. reflexivity. Qed.

Lemma create_template_kept (text : string) (ts : list Template) (rows : list string)
    (file : option string) (lg : list log_record) (sh : list (string * exn)) :
  Str.truthy (TemplateInputDialog.apply text) = true ->
  exists rows' tail sh',
    let ts' := ts ++ [mkTemplate (PStr (TemplateInputDialog.apply text))] in
    create_template (Some text) (mkApp ts rows file lg sh)
    = (Returns tt,
       mkApp ts' rows' (Some (Json.dumps (PList (map to_dict ts'))))
         (lg ++ [Log DEBUG "Creating new template";
                 Log DEBUG "Saving templates";
                 Log DEBUG ("Saved " +:+ Str.of_nat (length ts') +:+ " templates")] ++ tail)
         sh').
Proof.
  intros Hr. unfold create_template. rewrite bind_run.
  unfold logging at 1, modify. fields.
  cbn [dialog_result]. rewrite Hr, try_gets. fields.
  destruct (commit_run "Created new template" "Error creating template: "
                "An error occurred while creating the template: "
                (ts ++ [mkTemplate (PStr (TemplateInputDialog.apply text))]) ts rows file
                (lg ++ [Log DEBUG "Creating new template"]) sh)
    as (rows' & tail & sh' & ->).
  exists rows', tail, sh'. cbn zeta. now rewrite <- app_assoc.
Qed.

Lemma create_template_rejected (dialog : option string) (ts : list Template)
    (rows : list string) (file : option string) (lg : list log_record)
    (sh : list (string * exn)) :
  match dialog_result dialog with
  | Some r => Str.truthy r = false
  | None => True
  end ->
  create_template dialog (mkApp ts rows file lg sh)
  = (Returns tt, mkApp ts rows file (lg ++ [Log DEBUG "Creating new template"]) sh).
Proof.
  intros Hr. unfold create_template. rewrite bind_run.
  unfold logging at 1, modify. fields.
  destruct (dialog_result dialog) as [r|]; [rewrite Hr|]; reflexivity.
Qed.

Lemma position_lt (n : nat) (index : Z) (i : nat) : position n index = Some i -> i < n.
Proof. position_cases index n; intros [= <-]; lia. Qed.

Lemma position_valid (n : nat) (index : Z) :
  (0 <= index < Z.of_nat n)%Z -> position n index = Some (Z.to_nat index).
Proof. intros H. position_cases index n; (reflexivity || lia). Qed.

Lemma position_from_end (n : nat) (index : Z) :
  (- Z.of_nat n <= index < 0)%Z -> position n index = Some (Z.to_nat (Z.of_nat n + index)).
Proof. intros H. position_cases index n; (reflexivity || lia). Qed.

Lemma position_none (n : nat) (index : Z) :
  position n index = None <-> (index < - Z.of_nat n \/ Z.of_nat n <= index)%Z.
Proof. position_cases index n; split; (discriminate || lia || reflexivity). Qed.

Lemma in_listbox_position (index : Z) (others : list Z) (n m : nat) :
  ((0 <=? index)%Z && (index <? Z.of_nat n)%Z) = true ->
  n <= m ->
  position m index = Some (Z.to_nat index) /\ Z.to_nat index < m.
Proof.
  intros H Hn. apply andb_prop in H as [H0 H1].
  apply Z.leb_le in H0. apply Z.ltb_lt in H1.
  split; [apply position_valid; lia | lia].
Qed.

Lemma edit_template_unselected (dialog : option string) (ts : list Template)
    (rows : list string) (file : option string) (lg : list log_record)
    (sh : list (string * exn)) :
  edit_template [] dialog (mkApp ts rows file lg sh)
  = (Returns tt, mkApp ts rows file (lg ++ [Log DEBUG "Editing template"]) sh).
Proof. reflexivity. Qed.

Lemma edit_template_out_of_range (index : Z) (others : list Z) (dialog : option string)
    (ts : list Template) (rows : list string) (file : option string)
    (lg : list log_record) (sh : list (string * exn)) :
  position (length ts) index = None ->
  edit_template (index :: others) dialog (mkApp ts rows file lg sh)
  = (Raises IndexError, mkApp ts rows file (lg ++ [Log DEBUG "Editing template"]) sh).
Proof.
  intros H. unfold edit_template. rewrite bind_run.
  unfold logging at 1, modify. fields. rewrite bind_run. unfold gets at 1. fields.
  now rewrite H.
Qed.

Lemma edit_template_rejected (index : Z) (others : list Z) (dialog : option string)
    (i : nat) (ts : list Template) (rows : list string) (file : option string)
    (lg : list log_record) (sh : list (string * exn)) :
  position (length ts) index = Some i ->
  match dialog_result dialog with
  | Some r => Str.truthy r = false
  | None => True
  end ->
  edit_template (index :: others) dialog (mkApp ts rows file lg sh)
  = (Returns tt, mkApp ts rows file (lg ++ [Log DEBUG "Editing template"]) sh).
Proof.
  intros H Hr. unfold edit_template. rewrite bind_run.
  unfold logging at 1, modify. fields. rewrite bind_run. unfold gets at 1. fields.
  rewrite H.
  destruct (dialog_result dialog) as [r|]; [rewrite Hr|]; reflexivity.
Qed.

Lemma edit_template_kept (index : Z) (others : list Z) (text : string) (i : nat)
    (ts : list Template) (rows : list string) (file : option string)
    (lg : list log_record) (sh : list (string * exn)) :
  position (length ts) index = Some i ->
  Str.truthy (TemplateInputDialog.apply text) = true ->
  exists rows' tail sh',
    let ts' := <[i := mkTemplate (PStr (TemplateInputDialog.apply text))]> ts in
    edit_template (index :: others) (Some text) (mkApp ts rows file lg sh)
    = (Returns tt,
       mkApp ts' rows' (Some (Json.dumps (PList (map to_dict ts'))))
         (lg ++ [Log DEBUG "Editing template";
                 Log DEBUG "Saving templates";
                 Log DEBUG ("Saved " +:+ Str.of_nat (length ts') +:+ " templates")] ++ tail)
         sh').
Proof.
  intros H Hr. unfold edit_template. rewrite bind_run.
  unfold logging at 1, modify. fields. rewrite bind_run. unfold gets at 1. fields.
  rewrite H. cbn [dialog_result]. rewrite Hr.
  destruct (commit_run "Edited template" "Error editing template: "
                "An error occurred while editing the template: "
                (<[i := mkTemplate (PStr (TemplateInputDialog.apply text))]> ts) ts rows file
                (lg ++ [Log DEBUG "Editing template"]) sh)
    as (rows' & tail & sh' & ->).
  exists rows', tail, sh'. cbn zeta. now rewrite <- app_assoc.
Qed.

Lemma dict_get_In (key : string) (items : list (string * pyval)) :
  (exists v, dict_get key items = Some v) <-> In key (map fst items).
Proof.
  induction items as [|[k v] items IH]; simpl.
  - split; [intros [v H]; discriminate | tauto].
  - destruct (String.eqb k key) eqn:Hk.
    + apply String.eqb_eq in Hk. split; eauto.
    + apply String.eqb_neq in Hk. rewrite IH. tauto.
Qed.

Lemma filter_true {A : Type} (l : list A) : List.filter (fun _ => true) l = l.
Proof. induction l as [|x l IH]; simpl; [reflexivity | now rewrite IH]. Qed.

(** The file that [save_templates] writes for a collection of texts is
    loaded as that collection, whatever the object that loads it holds. *)
Lemma load_after_save (ds : list string) (rows : list string) (file : option string)
    (lg : list log_record) (sh : list (string * exn)) (ts0 : list Template)
    (rows0 : list string) (lg0 : list log_record) (sh0 : list (string * exn)) :
  exists app1 lg2,
    save_templates (mkApp (Doc.store ds) rows file lg sh) = (Returns tt, app1)
    /\ load_templates (mkApp ts0 rows0 (templates_json app1) lg0 sh0)
       = (Returns tt, mkApp (Doc.store ds) rows0 (templates_json app1) lg2 sh0).
Proof.
  rewrite save_templates_run. eexists _, _. split; [reflexivity|].
  fold (Doc.records ds). cbn [templates_json].
  rewrite (load_templates_document _ (Doc.records ds)) by apply loads_dumps_records.
  cbn [Doc.records iterate]. rewrite comprehension_to_dict. reflexivity.
Qed.

(** * The claims of the specification *)

(** C1 (the code departs from it). The claim: a file that is valid JSON
    but holds a record that fails validation makes [load] fall back to an
    empty collection without an uncaught error. In the code, on the file
    of the specification's own example (an object, not an array) the
    [TypeError] of [from_dict] leaves [load_templates], and so does the
    [KeyError] of an element without a description: only
    [FileNotFoundError] and [JSONDecodeError] have an [except] clause. An
    element whose description is a number is loaded as a template. *)
Theorem load_templates_wrong_shape :
  load_templates (mkApp [] [] (Some Doc.not_an_array) [] [])
  = (Raises TypeError,
     mkApp [] [] (Some Doc.not_an_array) [Log DEBUG "Loading templates"] [])
  /\ load_templates (mkApp [] [] (Some Doc.no_description) [] [])
     = (Raises KeyError,
        mkApp [] [] (Some Doc.no_description) [Log DEBUG "Loading templates"] [])
  /\ load_templates (mkApp [] [] (Some Doc.number_description) [] [])
     = (Returns tt,
        mkApp [mkTemplate (PInt 5)] [] (Some Doc.number_description)
          [Log DEBUG "Loading templates"; Log DEBUG "Loaded 1 templates"] []).
Proof. repeat split; vm_compute; reflexivity. Qed.

(** C7. When there is no backing file, [load_templates] returns, the
    collection is empty, and the only trace is a warning in the log: no
    exception leaves the method and no error box is shown. *)
Theorem load_templates_no_file (ts : list Template) (rows : list string)
    (lg : list log_record) (sh : list (string * exn)) :
  load_templates (mkApp ts rows None lg sh)
  = (Returns tt,
     mkApp [] rows None
       (lg ++ [Log DEBUG "Loading templates";
               Log WARNING "templates.json not found, starting with empty list"]) sh).
Proof. apply load_templates_missing. Qed.

(** C8 (the code departs from it). The claim: a file whose content does
    not parse as JSON makes [load] fall back to an empty collection, and
    the condition is logged and reaches no caller. In the code the
    fallback is the [except] clause of [JSONDecodeError]. An array that
    is cut short behind an integer of 4301 digits is not JSON either, but
    [json.load] gives up at the integer with a [ValueError], which has no
    clause: the exception leaves [load_templates], nothing is logged
    about it and the collection is not set. With one digit less the
    scan reaches the end of the text and the fallback runs. *)
Theorem load_templates_long_integer :
  load_templates (mkApp [] [] (Some (Doc.long_integer 4301)) [] [])
  = (Raises ValueError,
     mkApp [] [] (Some (Doc.long_integer 4301)) [Log DEBUG "Loading templates"] [])
  /\ load_templates (mkApp [] [] (Some (Doc.long_integer 4300)) [] [])
     = (Returns tt,
        mkApp [] [] (Some (Doc.long_integer 4300))
          [Log DEBUG "Loading templates";
           Log ERROR "Error decoding templates.json, starting with empty list"] []).
Proof. split; vm_compute; reflexivity. Qed.

(** C9. Saving twice in a row writes the same file content both times:
    what [save_templates] writes is [json.dumps] of the records of the
    collection, a function of the collection alone, and saving does not
    change the collection. *)
Theorem save_templates_idempotent (app : TemplaterApp) :
  let once := save_templates app in
  let twice := save_templates (snd once) in
  fst once = Returns tt
  /\ fst twice = Returns tt
  /\ templates_json (snd once) = Some (Json.dumps (PList (map to_dict (templates app))))
  /\ templates_json (snd twice) = templates_json (snd once)
  /\ templates (snd twice) = templates app.
Proof.
  destruct app as [ts rows file lg sh]. cbn zeta.
  rewrite save_templates_run. cbn [fst snd]. rewrite save_templates_run.
  cbn [fst snd templates templates_json]. auto.
Qed.

(** C4. Round trip: decoding the record of a template gives the template
    back; and for every sequence of text descriptions (the empty text
    included), [save_templates] returns, and [load_templates] in any
    object, whatever collection it holds, on the file that was written
    returns with the templates that were saved, in the same order. *)
Theorem save_load_round_trip :
  (forall t : Template, from_dict (to_dict t) = Returns t)
  /\ (forall (ds rows : list string) (file : option string) (lg : list log_record)
             (sh : list (string * exn)) (ts0 : list Template) (rows0 : list string)
             (lg0 : list log_record) (sh0 : list (string * exn)),
        let saved := save_templates (mkApp (Doc.store ds) rows file lg sh) in
        let loaded :=
          load_templates (mkApp ts0 rows0 (templates_json (snd saved)) lg0 sh0) in
        fst saved = Returns tt
        /\ fst loaded = Returns tt
        /\ templates (snd loaded) = Doc.store ds
        /\ map description (templates (snd loaded)) = map PStr ds).
Proof.
  split; [apply from_dict_to_dict|].
  intros ds rows file lg sh ts0 rows0 lg0 sh0. cbn zeta.
  destruct (load_after_save ds rows file lg sh ts0 rows0 lg0 sh0) as (app1 & lg2 & -> & H).
  cbn [fst snd]. rewrite H. cbn [fst snd templates].
  repeat split. unfold Doc.store. rewrite map_map. reflexivity.
Qed.

(** C3, as the code has it. [from_dict] succeeds exactly when the record
    is a dict that has the key [description], whatever the value under the
    key is, and the template holds that value; a dict without the key
    raises [KeyError], and everything that is not a dict raises
    [TypeError]. *)
Theorem from_dict_succeeds_iff (data : pyval) :
  ((exists t, from_dict data = Returns t)
   <-> exists items, data = PDict items /\ In "description" (map fst items))
  /\ (forall t, from_dict data = Returns t
        <-> exists items, data = PDict items
                          /\ dict_get "description" items = Some (description t))
  /\ (from_dict data = Raises KeyError
        <-> exists items, data = PDict items /\ ~ In "description" (map fst items))
  /\ (from_dict data = Raises TypeError <-> forall items, data <> PDict items).
Proof.
  assert (Hget : forall items,
             match dict_get "description" items with
             | Some _ => In "description" (map fst items)
             | None => ~ In "description" (map fst items)
             end).
  { intros items. destruct (dict_get "description" items) as [v|] eqn:H.
    - apply dict_get_In. eauto.
    - rewrite <- dict_get_In. intros [v Hv]. congruence. }
  unfold from_dict, getitem_str.
  destruct data as [| b | z | s | l | items];
    try (repeat split; intros;
         repeat match goal with
                | H : ex _ |- _ => destruct H
                | H : _ /\ _ |- _ => destruct H
                end;
         (discriminate || reflexivity)).
  specialize (Hget items).
  destruct (dict_get "description" items) as [v|] eqn:Hv; repeat split.
  - intros _. eauto.
  - intros _. eauto.
  - intros [= <-]. eauto.
  - intros (items' & [= <-] & H). destruct t as [d]. cbn in H. congruence.
  - discriminate.
  - intros (items' & [= <-] & H). contradiction.
  - discriminate.
  - intros H. now destruct (H items).
  - intros [t H]. discriminate.
  - intros (items' & [= <-] & H). contradiction.
  - discriminate.
  - intros (items' & [= <-] & H). congruence.
  - intros _. eauto.
  - discriminate.
  - intros H. now destruct (H items).
Qed.

(** C3 as stated fails: a dict whose description is the number 5 is
    decoded, to a template that holds the number. *)
Lemma from_dict_number_accepted :
  from_dict (PDict [("description", PInt 5)]) = Returns (mkTemplate (PInt 5))
  /\ ~ (exists s, dict_get "description" [("description", PInt 5)] = Some (PStr s)).
Proof. split; [reflexivity | intros [s H]; discriminate]. Qed.





(** C6. For every text of the dialog, [create_template] returns. When
    the text is white space only (the empty text included), the
    collection, the listbox and the file stay as they are and nothing is
    saved. Otherwise the text is a blank piece, a text [r] that neither
    starts nor ends with white space, and a blank piece; one template
    with the description [r] is appended at the end of the collection,
    and the collection is saved: the file then holds the new collection
    and the log the two records of [save_templates]. *)
Theorem create_template_appends_or_rejects (text : string) (ts : list Template)
    (rows : list string) (file : option string) (lg : list log_record)
    (sh : list (string * exn)) :
  let app := mkApp ts rows file lg sh in
  if Str.blank text then
    create_template (Some text) app
    = (Returns tt, mkApp ts rows file (lg ++ [Log DEBUG "Creating new template"]) sh)
  else
    exists (pre r post : string) rows' tail sh',
      text = pre +:+ r +:+ post
      /\ Str.blank pre = true
      /\ Str.blank post = true
      /\ r <> EmptyString
      /\ (forall c rest, r = String c rest -> Str.isspace c = false)
      /\ (forall init c, r = init +:+ String c EmptyString -> Str.isspace c = false)
      /\ create_template (Some text) app
         = (Returns tt,
            mkApp (ts ++ [mkTemplate (PStr r)]) rows'
              (Some (Json.dumps (PList (map to_dict (ts ++ [mkTemplate (PStr r)])))))
              (lg ++ [Log DEBUG "Creating new template";
                      Log DEBUG "Saving templates";
                      Log DEBUG ("Saved "
                                 +:+ Str.of_nat (length (ts ++ [mkTemplate (PStr r)]))
                                 +:+ " templates")] ++ tail)
              sh').
Proof.
  cbn zeta. pose proof (truthy_strip text) as Hr.
  destruct (Str.blank text) eqn:Hb; cbn [negb] in Hr.
  - apply create_template_rejected. exact Hr.
  - destruct (strip_split text) as (pre & post & Ht & Hpre & Hpost).
    destruct (create_template_kept text ts rows file lg sh Hr) as (rows' & tail & sh' & H).
    cbn zeta in H. unfold TemplateInputDialog.apply in H.
    exists pre, (Str.strip text), post, rows', tail, sh'.
    split; [exact Ht|]. split; [exact Hpre|]. split; [exact Hpost|].
    split; [intros He; rewrite He in Hr; discriminate|].
    split; [apply strip_head|].
    split; [intros init c; unfold Str.strip; apply rstrip_last | exact H].
Qed.

(** C10. Frame: an [edit_template] that goes through (the index is a
    position and the stripped text is not empty) returns, keeps the length
    of the collection, puts the new description at that position and
    leaves every other position as it was; a [create_template] that goes
    through returns, leaves every template that was there at its position
    and puts the new one after them. *)
Theorem edit_and_create_frame (text : string) (ts : list Template)
    (rows : list string) (file : option string) (lg : list log_record)
    (sh : list (string * exn)) :
  Str.truthy (TemplateInputDialog.apply text) = true ->
  let new := mkTemplate (PStr (TemplateInputDialog.apply text)) in
  let app := mkApp ts rows file lg sh in
  (forall (index : Z) (i : nat),
      position (length ts) index = Some i ->
      exists app',
        edit_template [index] (Some text) app = (Returns tt, app')
        /\ length (templates app') = length ts
        /\ templates app' !! i = Some new
        /\ forall j : nat, j <> i -> templates app' !! j = ts !! j)
  /\ (exists app',
        create_template (Some text) app = (Returns tt, app')
        /\ length (templates app') = S (length ts)
        /\ templates app' !! length ts = Some new
        /\ forall j : nat, j < length ts -> templates app' !! j = ts !! j).
Proof.
  intros Hr. cbn zeta. split.
  - intros index i Hp.
    destruct (edit_template_kept index [] text i ts rows file lg sh Hp Hr)
      as (rows' & tail & sh' & H).
    cbn zeta in H. rewrite H. eexists. split; [reflexivity|].
    cbn [templates]. repeat split.
    + apply length_insert.
    + apply list_lookup_insert_eq. eapply position_lt, Hp.
    + intros j Hj. apply list_lookup_insert_ne. congruence.
  - destruct (create_template_kept text ts rows file lg sh Hr)
      as (rows' & tail & sh' & H).
    cbn zeta in H. rewrite H. eexists. split; [reflexivity|].
    cbn [templates]. repeat split.
    + rewrite length_app. simpl. lia.
    + rewrite lookup_app_r by lia. now rewrite Nat.sub_diag.
    + intros j Hj. now apply lookup_app_l.
Qed.

(** C10 on a collection of two templates: the second one is edited, and
    a third one is created. *)
Lemma edit_and_create_frame_witness :
  Str.truthy (TemplateInputDialog.apply " x ") = true
  /\ (exists app',
        edit_template [1%Z] (Some " x ") (mkApp (Doc.store ["a"; "b"]) [] None [] [])
        = (Returns tt, app')
        /\ length (templates app') = 2
        /\ templates app' !! 1 = Some (mkTemplate (PStr "x"))
        /\ forall j : nat, j <> 1 -> templates app' !! j = Doc.store ["a"; "b"] !! j)
  /\ (exists app',
        create_template (Some " x ") (mkApp (Doc.store ["a"; "b"]) [] None [] [])
        = (Returns tt, app')
        /\ length (templates app') = 3
        /\ templates app' !! 2 = Some (mkTemplate (PStr "x"))
        /\ forall j : nat, j < 2 -> templates app' !! j = Doc.store ["a"; "b"] !! j).
Proof.
  assert (Hr : Str.truthy (TemplateInputDialog.apply " x ") = true)
    by (vm_compute; reflexivity).
  split; [exact Hr|].
  pose proof (edit_and_create_frame " x " (Doc.store ["a"; "b"]) [] None [] [] Hr) as [He Hc].
  split; [|exact Hc].
  apply (He 1%Z 1). vm_compute. reflexivity.
Defined.

(** * Further properties of the code *)

(** ** What the dialog returns *)

(** X1. The result of the dialog is the text without the white space at
    its two ends: the text is a blank piece, the result, a blank piece;
    the result neither starts nor ends with white space, and applying the
    dialog's [apply] to it again changes nothing. *)
Theorem apply_strips (text : string) :
  let r := TemplateInputDialog.apply text in
  (exists pre post,
      text = pre +:+ r +:+ post /\ Str.blank pre = true /\ Str.blank post = true)
  /\ (forall c rest, r = String c rest -> Str.isspace c = false)
  /\ (forall init c, r = init +:+ String c EmptyString -> Str.isspace c = false)
  /\ TemplateInputDialog.apply r = r.
Proof.
  cbn zeta. unfold TemplateInputDialog.apply. split; [apply strip_split|].
  split; [apply strip_head|]. split; [|apply strip_strip].
  intros init c. unfold Str.strip. apply rstrip_last.
Qed.

(** ** Decoding and loading *)

Lemma comprehension_Forall2 {A B : Type} (f : A -> result B) (xs : list A) (ys : list B) :
  comprehension f xs = Returns ys <-> Forall2 (fun x y => f x = Returns y) xs ys.
Proof.
  revert ys. induction xs as [|x xs IH]; intros ys; simpl.
  - split; [intros [= <-]; constructor | intros H; now inversion H].
  - destruct (f x) as [y|e] eqn:Hx.
    + destruct (comprehension f xs) as [ys'|e] eqn:Hc.
      * split.
        -- intros [= <-]. constructor; [exact Hx | now apply IH].
        -- intros H. inversion H as [|? y' ? ys'' Hy Hys]; subst.
           apply IH in Hys. congruence.
      * split; [discriminate|].
        intros H. inversion H as [|? y' ? ys'' Hy Hys]; subst.
        apply IH in Hys. discriminate.
    + split; [discriminate|]. intros H. inversion H; subst. congruence.
Qed.

(** A comprehension raises what its first failing element raises. *)
Lemma comprehension_first_failure {A B : Type} (f : A -> result B) (xs : list A) (e : exn) :
  comprehension f xs = Raises e ->
  exists pre x post,
    xs = pre ++ x :: post
    /\ Forall (fun x => exists y, f x = Returns y) pre
    /\ f x = Raises e.
Proof.
  induction xs as [|x xs IH]; simpl; [discriminate|].
  destruct (f x) as [y|e'] eqn:Hx.
  - destruct (comprehension f xs) as [ys|e'']; [discriminate|].
    intros [= <-]. destruct (IH eq_refl) as (pre & x' & post & -> & Hpre & Hx').
    exists (x :: pre), x', post. repeat split; [|exact Hx'].
    constructor; eauto.
  - intros [= <-]. exists [], x, xs. repeat split; [constructor | exact Hx].
Qed.

(** X2. Decoding and then encoding gives the record back exactly when
    the record is a dict with the one key [description]: whatever else a
    record holds is dropped. Encoding and then decoding always gives the
    template back. *)
Theorem to_dict_from_dict (data : pyval) (t : Template) :
  from_dict data = Returns t ->
  (to_dict t = data <-> exists v, data = PDict [("description", v)])
  /\ from_dict (to_dict t) = Returns t
  /\ exists items, data = PDict items /\ dict_get "description" items = Some (description t).
Proof.
  intros H. split; [|split; [apply from_dict_to_dict|]].
  - split.
    + intros <-. destruct t as [d]. eauto.
    + intros [v ->]. cbn in H. injection H as <-. reflexivity.
  - unfold from_dict, getitem_str in H.
    destruct data as [| | | | |items]; try discriminate.
    destruct (dict_get "description" items) as [v|] eqn:Hv; [|discriminate].
    injection H as <-. eauto.
Qed.

(** A record with a second key: it is decoded, and the encoding of the
    template is another record. *)
Lemma to_dict_from_dict_witness :
  from_dict (PDict [("description", PStr "a"); ("tag", PInt 1)]) = Returns (mkTemplate (PStr "a"))
  /\ ~ to_dict (mkTemplate (PStr "a")) = PDict [("description", PStr "a"); ("tag", PInt 1)].
Proof.
  split; [reflexivity|].
  intros H.
  destruct (to_dict_from_dict (PDict [("description", PStr "a"); ("tag", PInt 1)])
              (mkTemplate (PStr "a")) eq_refl) as [[Hv _] _].
  destruct (Hv H) as [v Hd]. discriminate.
Defined.

(** X3. Loading an array is all or nothing. When every element of the
    array decodes, the collection becomes the decoded templates, one per
    element and in the order of the file, whatever was in memory. When
    an element does not decode, the [KeyError] or [TypeError] of the
    first such element leaves [load_templates], and the collection, the
    listbox and the file are as before: the elements before it are not
    loaded. *)
Theorem load_templates_array (text : string) (items : list pyval) (ts : list Template)
    (rows : list string) (lg : list log_record) (sh : list (string * exn)) :
  Json.loads text = Json.Document (PList items) ->
  let app := mkApp ts rows (Some text) lg sh in
  (exists ts',
      Forall2 (fun item t => from_dict item = Returns t) items ts'
      /\ load_templates app
         = (Returns tt,
            mkApp ts' rows (Some text)
              (lg ++ [Log DEBUG "Loading templates";
                      Log DEBUG ("Loaded " +:+ Str.of_nat (length items) +:+ " templates")])
              sh))
  \/ (exists pre item post e,
         items = pre ++ item :: post
         /\ Forall (fun x => exists t, from_dict x = Returns t) pre
         /\ from_dict item = Raises e
         /\ (e = KeyError \/ e = TypeError)
         /\ load_templates app
            = (Raises e, mkApp ts rows (Some text) (lg ++ [Log DEBUG "Loading templates"]) sh)).
Proof.
  intros H. cbn zeta. rewrite (load_templates_document _ _ _ _ _ _ H). cbn [iterate].
  destruct (comprehension from_dict items) as [ts'|e] eqn:Hc.
  - left. exists ts'. apply comprehension_Forall2 in Hc.
    rewrite (Forall2_length _ _ _ Hc). auto.
  - right. pose proof (comprehension_raises _ _ Hc) as He.
    apply comprehension_first_failure in Hc as (pre & x & post & -> & Hpre & Hx).
    exists pre, x, post, e. auto.
Qed.

(** An array of two records, the second without a description: the
    first is not loaded either. *)
Lemma load_templates_array_witness :
  let text := "[{" +:+ Doc.quoted "description" +:+ ": " +:+ Doc.quoted "a" +:+ "}, {}]" in
  Json.loads text = Json.Document (PList [PDict [("description", PStr "a")]; PDict []])
  /\ load_templates (mkApp (Doc.store ["old"]) [] (Some text) [] [])
     = (Raises KeyError,
        mkApp (Doc.store ["old"]) [] (Some text) [Log DEBUG "Loading templates"] []).
Proof.
  cbn zeta. split; [vm_compute; reflexivity|].
  destruct (load_templates_array
              ("[{" +:+ Doc.quoted "description" +:+ ": " +:+ Doc.quoted "a" +:+ "}, {}]")
              [PDict [("description", PStr "a")]; PDict []]
              (Doc.store ["old"]) [] [] [])
    as [(ts' & _ & H) | (pre & item & post & e & _ & _ & _ & _ & H)].
  - vm_compute. reflexivity.
  - vm_compute in H. discriminate H.
  - vm_compute in H. injection H as <-. vm_compute. reflexivity.
Defined.

(** X4. A document that is not an array. The comprehension of
    [load_templates] iterates whatever [json.load] returns: an empty
    object and an empty string have nothing to iterate and give an empty
    collection; an object with a key and a string with a character hand
    a string to [from_dict], and a number, a boolean and [null] do not
    iterate, so a [TypeError] leaves the method and the state stays as it
    was. *)
Theorem load_templates_not_array (text : string) (v : pyval) (ts : list Template)
    (rows : list string) (lg : list log_record) (sh : list (string * exn)) :
  Json.loads text = Json.Document v ->
  let app := mkApp ts rows (Some text) lg sh in
  let empty :=
    (Returns tt,
     mkApp [] rows (Some text)
       (lg ++ [Log DEBUG "Loading templates"; Log DEBUG "Loaded 0 templates"]) sh) in
  let failed :=
    (Raises TypeError, mkApp ts rows (Some text) (lg ++ [Log DEBUG "Loading templates"]) sh) in
  match v with
  | PList _ => True
  | PDict [] => load_templates app = empty
  | PStr EmptyString => load_templates app = empty
  | _ => load_templates app = failed
  end.
Proof.
  intros H. cbn zeta. pose proof (load_templates_document _ _ ts rows lg sh H) as Hl.
  destruct v as [| b | z | s | items | items]; try exact Hl; try exact I.
  - destruct s as [|c s]; exact Hl.
  - destruct items as [|[k x] items]; exact Hl.
Qed.

(** The object of the corrupt-file example, and the empty object. *)
Lemma load_templates_not_array_witness :
  Json.loads Doc.not_an_array = Json.Document (PDict [("not", PStr "an array")])
  /\ load_templates (mkApp (Doc.store ["old"]) [] (Some Doc.not_an_array) [] [])
     = (Raises TypeError,
        mkApp (Doc.store ["old"]) [] (Some Doc.not_an_array)
          ([] ++ [Log DEBUG "Loading templates"]) [])
  /\ load_templates (mkApp (Doc.store ["old"]) [] (Some "{}") [] [])
     = (Returns tt,
        mkApp [] [] (Some "{}")
          ([] ++ [Log DEBUG "Loading templates"; Log DEBUG "Loaded 0 templates"]) []).
Proof.
  split; [vm_compute; reflexivity|]. split.
  - apply (load_templates_not_array Doc.not_an_array (PDict [("not", PStr "an array")])
             (Doc.store ["old"]) [] [] []).
    vm_compute. reflexivity.
  - apply (load_templates_not_array "{}" (PDict []) (Doc.store ["old"]) [] [] []).
    vm_compute. reflexivity.
Defined.

(** X17. The fallback of [load_templates]. Whenever [json.load] raises
    [JSONDecodeError] on the content of the file, also behind a float or
    an escape that was read, [load_templates] returns with an empty
    collection, whatever was in memory; the error is written to the log,
    and the listbox, the file and the error boxes are as before. *)
Theorem load_templates_invalid_json (text : string) (ts : list Template)
    (rows : list string) (lg : list log_record) (sh : list (string * exn)) :
  Json.loads text = Json.Malformed ->
  load_templates (mkApp ts rows (Some text) lg sh)
  = (Returns tt,
     mkApp [] rows (Some text)
       (lg ++ [Log DEBUG "Loading templates";
               Log ERROR "Error decoding templates.json, starting with empty list"]) sh).
Proof. apply load_templates_malformed. Qed.

(** An array that goes wrong behind a float, and a collection that was
    there before. *)
Lemma load_templates_invalid_json_witness :
  Json.loads "[1.5, }" = Json.Malformed
  /\ load_templates (mkApp (Doc.store ["old"]) [] (Some "[1.5, }") [] [])
     = (Returns tt,
        mkApp [] [] (Some "[1.5, }")
          ([] ++ [Log DEBUG "Loading templates";
                  Log ERROR "Error decoding templates.json, starting with empty list"]) []).
Proof.
  split; [vm_compute; reflexivity|].
  apply (load_templates_invalid_json "[1.5, }" (Doc.store ["old"]) [] [] []).
  vm_compute. reflexivity.
Defined.

Lemma load_templates_effects (ts : list Template) (rows : list string)
    (file : option string) (lg : list log_record) (sh : list (string * exn)) :
  exists r ts' tail,
    load_templates (mkApp ts rows file lg sh) = (r, mkApp ts' rows file (lg ++ tail) sh)
    /\ r <> Raises FileNotFoundError
    /\ r <> Raises JSONDecodeError
    /\ (r <> Returns tt -> ts' = ts).
Proof.
  destruct file as [text|].
  - destruct (Json.loads text) as [v| | |] eqn:Hv.
    + rewrite (load_templates_document _ _ _ _ _ _ Hv).
      destruct (iterate v) as [items|e] eqn:Hi.
      * destruct (comprehension from_dict items) as [ts'|e] eqn:Hc.
        -- eexists _, _, _. split; [reflexivity|]. repeat split; congruence.
        -- apply comprehension_raises in Hc.
           eexists _, _, _. split; [reflexivity|].
           repeat split; destruct Hc; congruence.
      * apply iterate_raises in Hi as ->.
        eexists _, _, _. split; [reflexivity|]. repeat split; congruence.
    + rewrite (load_templates_malformed _ _ _ _ _ Hv).
      eexists _, _, _. split; [reflexivity|]. repeat split; congruence.
    + exists (Raises ValueError), ts, [Log DEBUG "Loading templates"].
      split; [|repeat split; congruence].
      run. unfold json_load. rewrite Hv. reflexivity.
    + exists (Raises OutsideModel), ts, [Log DEBUG "Loading templates"].
      split; [|repeat split; congruence].
      run. unfold json_load. rewrite Hv. reflexivity.
  - rewrite load_templates_missing.
    eexists _, _, _. split; [reflexivity|]. repeat split; congruence.
Qed.

(** X5. [load_templates] writes the collection and the log and nothing
    else: the listbox, the file and the error boxes are the same after
    it, and the log only grows. It never lets a [FileNotFoundError] or a
    [JSONDecodeError] out; and when an exception leaves it, the
    collection is as it was before. *)
Theorem load_templates_frame (ts : list Template) (rows : list string)
    (file : option string) (lg : list log_record) (sh : list (string * exn)) :
  exists r ts' tail,
    load_templates (mkApp ts rows file lg sh) = (r, mkApp ts' rows file (lg ++ tail) sh)
    /\ r <> Raises FileNotFoundError
    /\ r <> Raises JSONDecodeError
    /\ (r <> Returns tt -> ts' = ts).
Proof. apply load_templates_effects. Qed.

(** ** Filling the listbox from any collection *)

Lemma all_text_store (ts : list Template) :
  all_text ts = true <-> exists ds, ts = Doc.store ds.
Proof.
  split.
  - induction ts as [|[d] ts IH]; [exists []; reflexivity|].
    cbn. unfold is_text at 1. cbn. destruct d as [| | |s| |]; try discriminate.
    intros H. destruct (IH H) as [ds ->]. exists (s :: ds). reflexivity.
  - intros [ds ->]. induction ds as [|d ds IH]; [reflexivity | exact IH].
Qed.

Lemma first_non_text (ts : list Template) :
  all_text ts = false ->
  exists pre t post, ts = Doc.store pre ++ t :: post /\ is_text t = false.
Proof.
  induction ts as [|t ts IH]; [discriminate|].
  cbn. destruct (is_text t) eqn:Ht.
  - intros H. destruct (IH H) as (pre & t' & post & -> & Ht').
    destruct t as [d]. unfold is_text in Ht. cbn in Ht.
    destruct d as [| | |s| |]; try discriminate.
    exists (s :: pre), t', post. auto.
  - intros _. exists [], t, ts. auto.
Qed.

Lemma all_text_app (xs ys : list Template) :
  all_text (xs ++ ys) = all_text xs && all_text ys.
Proof. apply forallb_app. Qed.

Lemma for_each_app {A : Type} (body : A -> py unit) (xs ys : list A) (app : TemplaterApp) :
  for_each (xs ++ ys) body app
  = match for_each xs body app with
    | (Returns _, app') => for_each ys body app'
    | (Raises e, app') => (Raises e, app')
    end.
Proof.
  revert app. induction xs as [|x xs IH]; intros app; [reflexivity|].
  cbn [List.app for_each]. rewrite !bind_run.
  destruct (body x app) as [[[]|e] app']; [apply IH | reflexivity].
Qed.

(** A turn of the loop on a description that is not a text. *)
Lemma insert_if_selected_non_text (query : option string) (t : Template)
    (app : TemplaterApp) :
  is_text t = false ->
  insert_if_selected query t app
  = (Raises (match query with None => TypeError | Some _ => AttributeError end), app).
Proof.
  destruct t as [d]. unfold is_text. cbn [description]. intros H.
  destruct app as [ts rows file lg sh].
  run. unfold selected_by, lower_of, row_of. cbn [description].
  destruct query, d; try discriminate; reflexivity.
Qed.

Lemma update_template_list_stops (query : option string) (pre : list string)
    (t : Template) (post : list Template) (rows : list string) (file : option string)
    (lg : list log_record) (sh : list (string * exn)) :
  is_text t = false ->
  update_template_list query (mkApp (Doc.store pre ++ t :: post) rows file lg sh)
  = (Raises (match query with None => TypeError | Some _ => AttributeError end),
     mkApp (Doc.store pre ++ t :: post)
       (map Doc.row (List.filter (Doc.keeps query) pre)) file
       (lg ++ [Log DEBUG "Updating template list"]) sh).
Proof.
  intros Ht.
  unfold update_template_list. rewrite !bind_run.
  unfold logging, set_listbox, modify, gets. fields. rewrite !bind_run. fields.
  rewrite for_each_app, for_each_store. cbn [for_each]. rewrite bind_run.
  rewrite insert_if_selected_non_text by exact Ht. reflexivity.
Qed.

Lemma update_template_list_returns_iff (query : option string) (app : TemplaterApp) :
  fst (update_template_list query app) = Returns tt <-> all_text (templates app) = true.
Proof.
  destruct app as [ts rows file lg sh]. cbn [templates].
  destruct (all_text ts) eqn:Hall.
  - apply all_text_store in Hall as [ds ->].
    rewrite update_template_list_store. cbn [fst]. tauto.
  - destruct (first_non_text ts Hall) as (pre & t & post & -> & Ht).
    rewrite update_template_list_stops by exact Ht. cbn [fst].
    split; [destruct query; discriminate | discriminate].
Qed.

(** X6. [update_template_list] returns exactly when every description of
    the collection is a text. At the first description that is not, the
    method stops: a [TypeError] leaves it when there is no query (the
    slice of the row fails) and an [AttributeError] when there is one
    (the description has no [lower]), whether or not the query would
    have matched; the listbox then holds the rows of the selected
    templates before that one only, and the collection and the file are
    untouched. *)
Theorem update_template_list_non_text (query : option string) :
  (forall app : TemplaterApp,
      fst (update_template_list query app) = Returns tt <-> all_text (templates app) = true)
  /\ (forall (pre : list string) (t : Template) (post : list Template) (rows : list string)
             (file : option string) (lg : list log_record) (sh : list (string * exn)),
         is_text t = false ->
         update_template_list query (mkApp (Doc.store pre ++ t :: post) rows file lg sh)
         = (Raises (match query with None => TypeError | Some _ => AttributeError end),
            mkApp (Doc.store pre ++ t :: post)
              (map Doc.row (List.filter (Doc.keeps query) pre)) file
              (lg ++ [Log DEBUG "Updating template list"]) sh)).
Proof.
  split; [apply update_template_list_returns_iff|].
  intros. now apply update_template_list_stops.
Qed.

(** A number between two texts, with a query that the number could not
    match: the first text is listed and the [AttributeError] comes. *)
Lemma update_template_list_non_text_witness :
  update_template_list (Some "a")
    (mkApp (Doc.store ["a"] ++ mkTemplate (PInt 5) :: Doc.store ["b"]) [] None [] [])
  = (Raises AttributeError,
     mkApp (Doc.store ["a"] ++ mkTemplate (PInt 5) :: Doc.store ["b"])
       (map Doc.row (List.filter (Doc.keeps (Some "a")) ["a"])) None
       ([] ++ [Log DEBUG "Updating template list"]) []).
Proof.
  destruct (update_template_list_non_text (Some "a")) as [_ H].
  apply (H ["a"] (mkTemplate (PInt 5)) (Doc.store ["b"]) [] None [] []).
  reflexivity.
Defined.

(** ** Creating and editing in a collection of texts *)

Lemma map_insert {A B : Type} (f : A -> B) (l : list A) (i : nat) (x : A) :
  map f (<[i := x]> l) = <[i := f x]> (map f l).
Proof.
  revert i. induction l as [|y l IH]; intros [|i]; cbn; try reflexivity.
  now rewrite IH.
Qed.

Lemma store_insert (ds : list string) (i : nat) (r : string) :
  <[i := mkTemplate (PStr r)]> (Doc.store ds) = Doc.store (<[i := r]> ds).
Proof. unfold Doc.store. now rewrite map_insert. Qed.

Lemma store_snoc (ds : list string) (r : string) :
  Doc.store ds ++ [mkTemplate (PStr r)] = Doc.store (ds ++ [r]).
Proof. unfold Doc.store. now rewrite map_app. Qed.

Lemma filter_keeps_None (ds : list string) : List.filter (Doc.keeps None) ds = ds.
Proof. apply filter_true. Qed.

(** The end of both actions when the new collection is made of texts:
    nothing raises, and the listbox shows every template. *)
Lemma commit_store (done log_msg box_msg : string) (ds' : list string) (ts : list Template)
    (rows : list string) (file : option string) (lg : list log_record)
    (sh : list (string * exn)) :
  exists tail,
    try_except
      (set_templates (Doc.store ds') ;; save_templates ;; update_template_list None ;;
       logging (Log DEBUG done))
      (except_Exception (fun e => logging (LogExc log_msg e) ;; showerror box_msg e))
      (mkApp ts rows file lg sh)
    = (Returns tt,
       mkApp (Doc.store ds') (map Doc.row ds') (Some (Json.dumps (Doc.records ds')))
         (lg ++ tail) sh).
Proof.
  unfold try_except. rewrite bind_run. unfold set_templates, modify. fields.
  rewrite bind_run, save_templates_run, bind_run, update_template_list_store.
  unfold logging, modify. fields. rewrite filter_keeps_None, <- !app_assoc.
  eexists. reflexivity.
Qed.

Lemma create_template_store (text : string) (ds : list string) (rows : list string)
    (file : option string) (lg : list log_record) (sh : list (string * exn)) :
  Str.truthy (TemplateInputDialog.apply text) = true ->
  exists tail,
    let ds' := ds ++ [TemplateInputDialog.apply text] in
    create_template (Some text) (mkApp (Doc.store ds) rows file lg sh)
    = (Returns tt,
       mkApp (Doc.store ds') (map Doc.row ds') (Some (Json.dumps (Doc.records ds')))
         (lg ++ tail) sh).
Proof.
  intros Hr. unfold create_template. rewrite bind_run.
  unfold logging at 1, modify. fields.
  cbn [dialog_result]. rewrite Hr, try_gets. fields. rewrite store_snoc.
  destruct (commit_store "Created new template" "Error creating template: "
              "An error occurred while creating the template: "
              (ds ++ [TemplateInputDialog.apply text]) (Doc.store ds) rows file
              (lg ++ [Log DEBUG "Creating new template"]) sh) as [tail ->].
  rewrite <- app_assoc. eexists. reflexivity.
Qed.

Lemma edit_template_store (index : Z) (others : list Z) (text : string) (i : nat)
    (ds : list string) (rows : list string) (file : option string)
    (lg : list log_record) (sh : list (string * exn)) :
  position (length ds) index = Some i ->
  Str.truthy (TemplateInputDialog.apply text) = true ->
  exists tail,
    let ds' := <[i := TemplateInputDialog.apply text]> ds in
    edit_template (index :: others) (Some text) (mkApp (Doc.store ds) rows file lg sh)
    = (Returns tt,
       mkApp (Doc.store ds') (map Doc.row ds') (Some (Json.dumps (Doc.records ds')))
         (lg ++ tail) sh).
Proof.
  intros H Hr. unfold edit_template. rewrite bind_run.
  unfold logging at 1, modify. fields. rewrite bind_run. unfold gets at 1. fields.
  unfold Doc.store at 1. rewrite length_map, H. cbn [dialog_result]. rewrite Hr.
  rewrite store_insert.
  destruct (commit_store "Edited template" "Error editing template: "
              "An error occurred while editing the template: "
              (<[i := TemplateInputDialog.apply text]> ds) (Doc.store ds) rows file
              (lg ++ [Log DEBUG "Editing template"]) sh) as [tail ->].
  rewrite <- app_assoc. eexists. reflexivity.
Qed.

(** ** Starting *)

(** The run of [start] up to the filling of the listbox. *)
Lemma start_run (app_dir : string) (file : option string) :
  start app_dir file
  = match load_templates
            (mkApp [] [] file [Log DEBUG ("Application data directory: " +:+ app_dir)] []) with
    | (Returns _, app1) =>
        match update_template_list None
                (mkApp (templates app1) (template_listbox app1) (templates_json app1)
                   (logged app1 ++ [Log DEBUG "Setting up tray icon";
                                    Log DEBUG "Tray icon setup complete";
                                    Log DEBUG "Setting up UI"])
                   (shown app1)) with
        | (Returns _, app2) =>
            (Returns tt,
             mkApp (templates app2) (template_listbox app2) (templates_json app2)
               (logged app2 ++ [Log DEBUG "UI setup complete"]) (shown app2))
        | (Raises e, app2) => (Raises e, app2)
        end
    | (Raises e, app1) => (Raises e, app1)
    end.
Proof.
  unfold start, init. rewrite !bind_run. unfold set_templates, logging, modify. fields.
  cbn [app]. rewrite !bind_run.
  destruct (load_templates _) as [[[]|e] app1]; [|reflexivity].
  fields. rewrite !bind_run. fields. rewrite <- !app_assoc. cbn [app].
  reflexivity.
Qed.

Lemma start_returns (app_dir : string) (file : option string) (app : TemplaterApp) :
  start app_dir file = (Returns tt, app) ->
  exists ds lg, app = mkApp (Doc.store ds) (map Doc.row ds) file lg [].
Proof.
  rewrite start_run.
  destruct (load_templates_effects [] [] file
              [Log DEBUG ("Application data directory: " +:+ app_dir)] [])
    as (r & ts' & tail & -> & _ & _ & _).
  destruct r as [[]|e]; [|discriminate]. fields.
  destruct (all_text ts') eqn:Hall.
  - apply all_text_store in Hall as [ds ->].
    rewrite update_template_list_store. fields. rewrite filter_keeps_None.
    intros [= <-]. eauto.
  - destruct (first_non_text ts' Hall) as (pre & t & post & -> & Ht).
    rewrite update_template_list_stops by exact Ht. discriminate.
Qed.

(** A start on a file that [save_templates] wrote from texts. *)
Lemma start_store (app_dir : string) (ds : list string) :
  exists lg,
    start app_dir (Some (Json.dumps (Doc.records ds)))
    = (Returns tt,
       mkApp (Doc.store ds) (map Doc.row ds) (Some (Json.dumps (Doc.records ds))) lg []).
Proof.
  rewrite start_run.
  rewrite (load_templates_document _ (Doc.records ds)) by apply loads_dumps_records.
  cbn [Doc.records iterate]. rewrite comprehension_to_dict. fields.
  rewrite update_template_list_store. fields. rewrite filter_keeps_None.
  eexists. reflexivity.
Qed.

(** X7. When [TemplaterApp()] returns, every description of the
    collection is a text, the listbox shows the row of every template in
    the order of the collection, the file is as it was found and no
    error box was shown: a file whose array holds a description that is
    not a text stops the program in [setup_ui]. *)
Theorem start_sound (app_dir : string) (file : option string) (app : TemplaterApp) :
  start app_dir file = (Returns tt, app) ->
  exists ds,
    templates app = Doc.store ds
    /\ template_listbox app = map Doc.row ds
    /\ templates_json app = file
    /\ shown app = []
    /\ sound app.
Proof.
  intros H. apply start_returns in H as (ds & lg & ->). exists ds.
  cbn [templates template_listbox templates_json shown]. repeat split.
  - apply all_text_store. eauto.
  - cbn [templates template_listbox]. unfold Doc.store. now rewrite !length_map.
Qed.

(** A start on a file with two templates. *)
Lemma start_sound_witness :
  exists app,
    start "dir" (Some (Json.dumps (Doc.records ["a"; "b"]))) = (Returns tt, app)
    /\ exists ds,
         templates app = Doc.store ds
         /\ template_listbox app = map Doc.row ds
         /\ templates_json app = Some (Json.dumps (Doc.records ["a"; "b"]))
         /\ shown app = []
         /\ sound app.
Proof.
  eexists. split; [vm_compute; reflexivity|].
  apply (start_sound "dir" (Some (Json.dumps (Doc.records ["a"; "b"])))).
  vm_compute. reflexivity.
Defined.

(** ** The window at work *)

Lemma search_templates_store (query : option string) (ds : list string)
    (rows : list string) (file : option string) (lg : list log_record)
    (sh : list (string * exn)) :
  exists tail,
    search_templates query (mkApp (Doc.store ds) rows file lg sh)
    = (Returns tt,
       mkApp (Doc.store ds) (map Doc.row (List.filter (Doc.keeps query) ds)) file
         (lg ++ tail) sh).
Proof.
  unfold search_templates. rewrite bind_run. unfold logging, modify. fields.
  rewrite update_template_list_store, <- app_assoc. eexists. reflexivity.
Qed.

Lemma store_length (ds : list string) : length (Doc.store ds) = length ds.
Proof. apply length_map. Qed.

Lemma copy_template_run (index : Z) (others : list Z) (i : nat) (t : Template)
    (app : TemplaterApp) (gui : Gui) :
  position (length (templates app)) index = Some i ->
  templates app !! i = Some t ->
  copy_template (index :: others) app gui
  = (Returns tt,
     mkGui (root_bg gui) (mkStatus "Template copied to clipboard!" "green" "lightgrey")
       [description t] (scheduled gui ++ [(2000, ClearStatusMessage)])).
Proof. intros Hp Ht. unfold copy_template. now rewrite Hp, Ht. Qed.

Ltac untouched :=
  cbn [fst snd shown templates templates_json template_listbox];
  split; [reflexivity|]; split; [left; auto|];
  intros _ _ Hl; split; [reflexivity | now rewrite store_length].

Ltac rewritten :=
  cbn [fst snd shown templates templates_json template_listbox];
  split; [reflexivity|]; split; [right; eauto|];
  intros _ _ _; split; [reflexivity|]; now rewrite length_map, store_length.

Ltac listed :=
  cbn [fst snd shown templates templates_json template_listbox];
  split; [reflexivity|]; split; [left; auto|];
  intros _ _ _; split; [reflexivity|];
  rewrite length_map, store_length; apply filter_length_le.

Lemma perform_text_step (a : action) (ds rows : list string) (file : option string)
    (lg : list log_record) (sh : list (string * exn)) (gui : Gui) :
  text_step ds rows file sh a (perform a (mkApp (Doc.store ds) rows file lg sh, gui)).
Proof.
  unfold text_step. cbn zeta.
  destruct a as [dialog | selected dialog | query | | selected]; cbn [perform].
  - (* Create *)
    destruct dialog as [text|];
      [destruct (Str.truthy (TemplateInputDialog.apply text)) eqn:Hr|].
    + destruct (create_template_store text ds rows file lg sh Hr) as [tail H].
      cbn zeta in H. rewrite H. rewritten.
    + rewrite create_template_rejected by exact Hr. untouched.
    + rewrite create_template_rejected by exact I. untouched.
  - (* Edit *)
    destruct selected as [|index others]; [rewrite edit_template_unselected; untouched|].
    destruct (position (length (Doc.store ds)) index) as [i|] eqn:Hp.
    + destruct dialog as [text|];
        [destruct (Str.truthy (TemplateInputDialog.apply text)) eqn:Hr|].
      * rewrite store_length in Hp.
        destruct (edit_template_store index others text i ds rows file lg sh Hp Hr)
          as [tail H].
        cbn zeta in H. rewrite H. rewritten.
      * rewrite (edit_template_rejected index others (Some text) i) by assumption.
        untouched.
      * rewrite (edit_template_rejected index others None i) by (assumption || exact I).
        untouched.
    + rewrite edit_template_out_of_range by exact Hp.
      cbn [fst snd shown templates templates_json template_listbox].
      split; [reflexivity|]. split; [left; auto|].
      intros lg0 Hsel Hl. exfalso.
      cbn [selection_ok in_listbox forallb template_listbox] in Hsel.
      apply andb_prop in Hsel as [Hsel _].
      destruct (in_listbox_position index others (length rows) (length (Doc.store ds)) Hsel)
        as [Hp' _]; [now rewrite store_length | congruence].
  - (* Search *)
    destruct (search_templates_store query ds rows file lg sh) as [tail ->]. listed.
  - (* ClearSearch *)
    rewrite update_template_list_store. listed.
  - (* Copy *)
    destruct (copy_template selected (mkApp (Doc.store ds) rows file lg sh) gui)
      as [r gui'] eqn:Hc.
    cbn [fst snd shown templates templates_json template_listbox].
    split; [reflexivity|]. split; [left; auto|].
    intros lg0 Hsel Hl. split; [|now rewrite store_length].
    destruct selected as [|index others]; [cbn in Hc; congruence|].
    cbn [selection_ok in_listbox forallb template_listbox] in Hsel.
    apply andb_prop in Hsel as [Hsel _].
    destruct (in_listbox_position index others (length rows) (length (Doc.store ds)) Hsel)
      as [Hp Hi]; [now rewrite store_length|].
    destruct (lookup_lt_is_Some_2 (Doc.store ds) (Z.to_nat index) Hi) as [t Ht].
    rewrite (copy_template_run index others (Z.to_nat index) t) in Hc by assumption.
    congruence.
Qed.

Lemma session_cons (a : action) (rest : list action) (w : TemplaterApp * Gui) :
  session (a :: rest) w
  = (fst (perform a w) :: fst (session rest (snd (perform a w))),
     snd (session rest (snd (perform a w)))).
Proof.
  cbn [session]. destruct (perform a w) as [r w']. cbn [fst snd].
  destruct (session rest w') as [rs w'']. reflexivity.
Qed.

(** X8. In a window whose descriptions are texts and whose listbox is no
    longer than the collection (as it is after a start), a session of
    creations, edits, searches, cleared searches and copies, each with
    its selection in the listbox of the moment, never raises and never
    shows an error box, and the window is in such a state again after
    it. *)
Theorem session_sound (actions : list action) (app : TemplaterApp) (gui : Gui) :
  sound app ->
  selections_ok actions (app, gui) ->
  Forall (fun r => r = Returns tt) (fst (session actions (app, gui)))
  /\ sound (fst (snd (session actions (app, gui))))
  /\ shown (fst (snd (session actions (app, gui)))) = shown app.
Proof.
  revert app gui. induction actions as [|a rest IH]; intros app gui Hs Hok.
  - cbn. auto.
  - destruct app as [ts rows file lg sh]. destruct Hs as [Hall Hrows].
    cbn [templates template_listbox] in Hall, Hrows.
    apply all_text_store in Hall as [ds ->]. rewrite store_length in Hrows.
    destruct Hok as [Hsel Hrest]. cbn [fst] in Hsel.
    pose proof (perform_text_step a ds rows file lg sh gui) as (Hsh & Hts & Hret).
    destruct (Hret lg Hsel Hrows) as [Hr Hl].
    rewrite session_cons. cbn [fst snd].
    destruct (perform a (mkApp (Doc.store ds) rows file lg sh, gui)) as [r [app' gui']].
    cbn [fst snd] in *.
    assert (Hs' : sound app').
    { split; [|exact Hl].
      apply all_text_store. destruct Hts as [[-> _] | (ds' & -> & _)]; eauto. }
    destruct (IH app' gui' Hs' Hrest) as (Hrs & Hsound & Hshown).
    split; [constructor; assumption|]. split; [exact Hsound|].
    cbn [shown]. congruence.
Qed.

Lemma session_texts (actions : list action) :
  forall (ds rows : list string) (file : option string) (lg : list log_record)
         (sh : list (string * exn)) (gui : Gui),
    let app_end := fst (snd (session actions (mkApp (Doc.store ds) rows file lg sh, gui))) in
    (templates app_end = Doc.store ds /\ templates_json app_end = file)
    \/ exists ds', templates app_end = Doc.store ds'
                   /\ templates_json app_end = Some (Json.dumps (Doc.records ds')).
Proof.
  induction actions as [|a rest IH]; intros ds rows file lg sh gui; cbn zeta.
  - left. auto.
  - rewrite session_cons. cbn [fst snd].
    pose proof (perform_text_step a ds rows file lg sh gui) as (_ & Hts & _).
    destruct (perform a (mkApp (Doc.store ds) rows file lg sh, gui))
      as [r [[ts' rows' file' lg' sh'] gui']].
    cbn [fst snd templates templates_json] in *.
    destruct Hts as [[-> ->] | (ds' & -> & ->)].
    + apply IH.
    + right. destruct (IH ds' rows' (Some (Json.dumps (Doc.records ds'))) lg' sh' gui')
        as [[H1 H2] | H]; eauto.
Qed.

(** X10. What is in memory is what is on disk: after a start that
    returns and any session in the window (whatever the selections and
    the answers), a new start on the file of the moment returns with the
    same collection, in the same order. *)
Theorem session_persisted (app_dir : string) (file : option string) (app : TemplaterApp)
    (actions : list action) (gui : Gui) :
  start app_dir file = (Returns tt, app) ->
  persisted app_dir (fst (snd (session actions (app, gui)))).
Proof.
  intros Hstart. pose proof Hstart as H0.
  apply start_returns in H0 as (ds & lg & ->).
  destruct (session_texts actions ds (map Doc.row ds) file lg [] gui)
    as [[Ht Hf] | (ds' & Ht & Hf)]; unfold persisted.
  - rewrite Hf, Ht. eexists. split; [exact Hstart | reflexivity].
  - rewrite Hf, Ht. destruct (start_store app_dir ds') as [lg' ->].
    eexists. split; reflexivity.
Qed.

(** A start without a file, then a creation, an edit of the new template
    and a search: a new start finds the edited template. *)
Lemma session_persisted_witness :
  exists app,
    start "dir" None = (Returns tt, app)
    /\ persisted "dir"
         (fst (snd (session [Create (Some "Hello"); Edit [0%Z] (Some " Bye "); Search (Some "x")]
                      (app, mkGui "grey" (mkStatus "" "black" "grey") [] []))))
    /\ templates
         (fst (snd (session [Create (Some "Hello"); Edit [0%Z] (Some " Bye "); Search (Some "x")]
                      (app, mkGui "grey" (mkStatus "" "black" "grey") [] []))))
       = Doc.store ["Bye"].
Proof.
  eexists. split; [vm_compute; reflexivity|]. split.
  - apply (session_persisted "dir" None). vm_compute. reflexivity.
  - vm_compute. reflexivity.
Defined.

(** A window with two templates: a search that keeps the second, a copy
    of the row, an edit of the row and a creation. *)
Lemma session_sound_witness :
  let app := mkApp (Doc.store ["a"; "b"]) (map Doc.row ["a"; "b"]) None [] [] in
  let gui := mkGui "grey" (mkStatus "" "black" "grey") [] [] in
  let actions := [Search (Some "B"); Copy [0%Z]; Edit [0%Z] (Some "c"); Create (Some "d")] in
  sound app
  /\ selections_ok actions (app, gui)
  /\ Forall (fun r => r = Returns tt) (fst (session actions (app, gui)))
  /\ sound (fst (snd (session actions (app, gui))))
  /\ shown (fst (snd (session actions (app, gui)))) = [].
Proof.
  cbn zeta.
  assert (Hs : sound (mkApp (Doc.store ["a"; "b"]) (map Doc.row ["a"; "b"]) None [] []))
    by (split; [reflexivity | simpl; lia]).
  assert (Hok : selections_ok
                  [Search (Some "B"); Copy [0%Z]; Edit [0%Z] (Some "c"); Create (Some "d")]
                  (mkApp (Doc.store ["a"; "b"]) (map Doc.row ["a"; "b"]) None [] [],
                   mkGui "grey" (mkStatus "" "black" "grey") [] []))
    by (vm_compute; tauto).
  split; [exact Hs|]. split; [exact Hok|].
  exact (session_sound _ _ _ Hs Hok).
Defined.

Lemma search_templates_frame (query : option string) (ts : list Template)
    (rows : list string) (file : option string) (lg : list log_record)
    (sh : list (string * exn)) :
  exists r rows' tail,
    search_templates query (mkApp ts rows file lg sh) = (r, mkApp ts rows' file (lg ++ tail) sh).
Proof.
  unfold search_templates. rewrite bind_run. unfold logging, modify. fields.
  destruct (update_template_list_frame query ts rows file
              (lg ++ [Log DEBUG "Searching templates"]) sh)
    as (r & rows' & tail & -> & _).
  rewrite <- app_assoc. eauto.
Qed.

Lemma perform_length (a : action) (app : TemplaterApp) (gui : Gui) :
  length (templates (fst (snd (perform a (app, gui))))) = length (templates app) + adds a.
Proof.
  destruct app as [ts rows file lg sh].
  destruct a as [dialog | selected dialog | query | | selected];
    cbn [perform adds templates].
  - destruct dialog as [text|];
      [destruct (Str.truthy (TemplateInputDialog.apply text)) eqn:Hr|].
    + destruct (create_template_kept text ts rows file lg sh Hr) as (rows' & tail & sh' & H).
      cbn zeta in H. rewrite H. cbn [fst snd templates]. now rewrite length_app.
    + rewrite create_template_rejected by exact Hr. cbn [fst snd templates]. lia.
    + rewrite create_template_rejected by exact I. cbn [fst snd templates]. lia.
  - rewrite Nat.add_0_r.
    destruct selected as [|index others]; [now rewrite edit_template_unselected|].
    destruct (position (length ts) index) as [i|] eqn:Hp;
      [|now rewrite edit_template_out_of_range by exact Hp].
    destruct dialog as [text|];
      [destruct (Str.truthy (TemplateInputDialog.apply text)) eqn:Hr|].
    + destruct (edit_template_kept index others text i ts rows file lg sh Hp Hr)
        as (rows' & tail & sh' & H).
      cbn zeta in H. rewrite H. cbn [fst snd templates]. apply length_insert.
    + now rewrite (edit_template_rejected index others (Some text) i) by assumption.
    + now rewrite (edit_template_rejected index others None i) by (assumption || exact I).
  - destruct (search_templates_frame query ts rows file lg sh) as (r & rows' & tail & ->).
    cbn [fst snd templates]. lia.
  - destruct (update_template_list_frame None ts rows file lg sh)
      as (r & rows' & tail & -> & _).
    cbn [fst snd templates]. lia.
  - destruct (copy_template selected _ gui) as [r gui']. cbn [fst snd templates]. lia.
Qed.

(** X9. Nothing is ever removed: whatever the state, the selections and
    the answers, the collection after a session has as many templates as
    before plus one for every creation dialog that was confirmed with a
    text that is not blank. Edits, searches and copies keep the count,
    also when they raise. *)
Theorem session_length (actions : list action) :
  forall (app : TemplaterApp) (gui : Gui),
    length (templates (fst (snd (session actions (app, gui)))))
    = length (templates app) + list_sum (map adds actions).
Proof.
  induction actions as [|a rest IH]; intros app gui.
  - cbn. lia.
  - rewrite session_cons. cbn [fst snd map list_sum].
    pose proof (perform_length a app gui) as Hl.
    destruct (perform a (app, gui)) as [r [app' gui']]. cbn [fst snd] in *.
    rewrite IH, Hl. unfold list_sum. cbn [fold_right]. lia.
Qed.

(** ** Rows and positions *)

Lemma filter_combine_lookup (f : nat * string -> bool) (ds : list string) :
  forall (k i j : nat) (d : string),
    List.filter f (combine (seq k (length ds)) ds) !! i = Some (j, d) ->
    k + i <= j /\ ds !! (j - k) = Some d.
Proof.
  induction ds as [|x ds IH]; intros k i j d; cbn [length seq combine List.filter].
  - discriminate.
  - destruct (f (k, x)).
    + destruct i as [|i]; cbn [lookup list_lookup].
      * intros [= <- <-]. rewrite Nat.sub_diag. split; [lia | reflexivity].
      * intros H. apply IH in H as [Hk H]. split; [lia|].
        replace (j - k) with (S (j - S k)) by lia. exact H.
    + intros H. apply IH in H as [Hk H]. split; [lia|].
      replace (j - k) with (S (j - S k)) by lia. exact H.
Qed.

Lemma search_lookup (query : option string) (ds : list string) (i j : nat) (d : string) :
  Doc.search query ds !! i = Some (j, d) -> i <= j /\ ds !! j = Some d.
Proof.
  unfold Doc.search, Doc.indexed. intros H.
  apply filter_combine_lookup in H as [Hk H]. rewrite Nat.sub_0_r in H. split; [lia | exact H].
Qed.

Lemma indexed_lookup (ds : list string) :
  forall (k i j : nat) (d : string),
    combine (seq k (length ds)) ds !! i = Some (j, d) -> j = k + i.
Proof.
  induction ds as [|x ds IH]; intros k i j d; cbn [length seq combine]; [discriminate|].
  destruct i as [|i]; cbn [lookup list_lookup].
  - intros [= <- _]. lia.
  - intros H. apply IH in H. lia.
Qed.

Lemma lookup_map {A B : Type} (f : A -> B) (l : list A) (i : nat) :
  map f l !! i = option_map f (l !! i).
Proof.
  revert i. induction l as [|x l IH]; intros [|i]; cbn; try reflexivity. apply IH.
Qed.

(** X11. After [update_template_list(query)], row [i] of the listbox
    shows the [i]-th selected template, which stands at an index [j] of
    the collection that is [i] or more, and [i] itself when there is no
    query. [copy_template] and [edit_template] take the number of the
    row as an index into the whole collection: with row [i] selected the
    clipboard gets the description at index [i], and an edit replaces the
    description at index [i]. *)
Theorem row_and_position (query : option string) (ds rows : list string)
    (file : option string) (lg : list log_record) (sh : list (string * exn)) (gui : Gui)
    (i j : nat) (d : string) :
  Doc.search query ds !! i = Some (j, d) ->
  let app := snd (update_template_list query (mkApp (Doc.store ds) rows file lg sh)) in
  template_listbox app !! i = Some (Doc.row d)
  /\ ds !! j = Some d
  /\ i <= j
  /\ (query = None -> j = i)
  /\ exists d',
       ds !! i = Some d'
       /\ fst (copy_template [Z.of_nat i] app gui) = Returns tt
       /\ clipboard (snd (copy_template [Z.of_nat i] app gui)) = [PStr d']
       /\ forall text,
            Str.truthy (TemplateInputDialog.apply text) = true ->
            templates (snd (edit_template [Z.of_nat i] (Some text) app))
            = Doc.store (<[i := TemplateInputDialog.apply text]> ds).
Proof.
  intros H. cbn zeta. rewrite update_template_list_store.
  cbn [snd template_listbox].
  destruct (search_lookup _ _ _ _ _ H) as [Hij Hj].
  assert (Hi : i < length ds).
  { apply lookup_lt_Some in Hj. lia. }
  destruct (lookup_lt_is_Some_2 ds i Hi) as [d' Hd'].
  assert (Hp : position (length ds) (Z.of_nat i) = Some i).
  { rewrite position_valid by lia. now rewrite Nat2Z.id. }
  split; [|split; [exact Hj|split; [exact Hij|split]]].
  - rewrite <- search_descriptions, map_map, lookup_map, H. reflexivity.
  - intros ->. unfold Doc.search, Doc.keeps in H.
    rewrite filter_true in H. now apply indexed_lookup in H.
  - exists d'. split; [exact Hd'|].
    assert (Ht : Doc.store ds !! i = Some (mkTemplate (PStr d'))).
    { unfold Doc.store. now rewrite lookup_map, Hd'. }
    rewrite (copy_template_run (Z.of_nat i) [] i (mkTemplate (PStr d')));
      [| cbn [templates]; now rewrite store_length | exact Ht].
    cbn [fst snd clipboard description]. repeat split.
    intros text Hr.
    destruct (edit_template_store (Z.of_nat i) [] text i ds
                (map Doc.row (List.filter (Doc.keeps query) ds)) file
                (lg ++ [Log DEBUG "Updating template list";
                        Log DEBUG ("Added "
                                   +:+ Str.of_nat (length (List.filter (Doc.keeps query) ds))
                                   +:+ " templates to the listbox")]) sh Hp Hr) as [tail E].
    cbn zeta in E. rewrite E. reflexivity.
Qed.

(** Two templates and a search that keeps the second only: row 0 shows
    the second template, and a copy of row 0 takes the first. *)
Lemma row_and_position_witness :
  let app := snd (update_template_list (Some "buy")
                    (mkApp (Doc.store ["Call mom"; "Buy milk"]) [] None [] [])) in
  let gui := mkGui "grey" (mkStatus "" "black" "grey") [] [] in
  Doc.search (Some "buy") ["Call mom"; "Buy milk"] !! 0 = Some (1, "Buy milk")
  /\ template_listbox app !! 0 = Some (Doc.row "Buy milk")
  /\ clipboard (snd (copy_template [0%Z] app gui)) = [PStr "Call mom"].
Proof.
  cbn zeta.
  assert (H : Doc.search (Some "buy") ["Call mom"; "Buy milk"] !! 0 = Some (1, "Buy milk"))
    by (vm_compute; reflexivity).
  split; [exact H|].
  destruct (row_and_position (Some "buy") ["Call mom"; "Buy milk"] [] None [] []
              (mkGui "grey" (mkStatus "" "black" "grey") [] []) 0 1 "Buy milk" H)
    as (Hrow & _ & _ & _ & d' & Hd' & _ & Hclip & _).
  split; [exact Hrow|].
  cbn in Hd'. injection Hd' as <-. exact Hclip.
Defined.

(** ** Queries *)

Lemma keeps_empty_query (d : string) : Doc.keeps (Some EmptyString) d = true.
Proof. unfold Doc.keeps. cbn [Str.lower]. now destruct (Str.lower d). Qed.

Lemma filter_ext_all {A : Type} (f g : A -> bool) (l : list A) :
  (forall x, f x = g x) -> List.filter f l = List.filter g l.
Proof.
  intros H. induction l as [|x l IH]; [reflexivity|].
  cbn. now rewrite H, IH.
Qed.

Lemma sublist_map {A B : Type} (f : A -> B) (l1 l2 : list A) :
  sublist l1 l2 -> sublist (map f l1) (map f l2).
Proof. induction 1; cbn; now constructor. Qed.

(** X12. How the query counts, on a collection of texts. The empty query
    (a search confirmed with nothing typed) fills the listbox as no
    query does; two queries that differ in case only fill it alike; the
    rows of a search are rows of the full list, in the same order; and
    filling the listbox without a query after any search shows every
    template again. *)
Theorem queries (ds rows : list string) (file : option string) (lg : list log_record)
    (sh : list (string * exn)) :
  let app := mkApp (Doc.store ds) rows file lg sh in
  update_template_list (Some EmptyString) app = update_template_list None app
  /\ (forall q1 q2,
         Str.lower q1 = Str.lower q2 ->
         update_template_list (Some q1) app = update_template_list (Some q2) app)
  /\ (forall query,
         sublist (template_listbox (snd (update_template_list query app)))
                 (template_listbox (snd (update_template_list None app))))
  /\ (forall query,
         template_listbox
           (snd (update_template_list None (snd (update_template_list query app))))
         = map Doc.row ds).
Proof.
  cbn zeta. rewrite !update_template_list_store. split; [|split; [|split]].
  - rewrite (filter_ext_all (Doc.keeps (Some EmptyString)) (Doc.keeps None)); [reflexivity|].
    intros d. now rewrite keeps_empty_query.
  - intros q1 q2 Hq. rewrite !update_template_list_store.
    rewrite (filter_ext_all (Doc.keeps (Some q1)) (Doc.keeps (Some q2))); [reflexivity|].
    intros d. unfold Doc.keeps. now rewrite Hq.
  - intros query. rewrite !update_template_list_store. cbn [snd template_listbox].
    rewrite filter_keeps_None. apply sublist_map, filter_sublist.
  - intros query. rewrite update_template_list_store. cbn [snd].
    rewrite update_template_list_store. cbn [snd template_listbox].
    now rewrite filter_keeps_None.
Qed.

(** The queries [BUY] and [buy] on two templates. *)
Lemma queries_witness :
  Str.lower "BUY" = Str.lower "buy"
  /\ update_template_list (Some "BUY") (mkApp (Doc.store ["Buy milk"; "Call mom"]) [] None [] [])
     = update_template_list (Some "buy") (mkApp (Doc.store ["Buy milk"; "Call mom"]) [] None [] []).
Proof.
  assert (H : Str.lower "BUY" = Str.lower "buy") by (vm_compute; reflexivity).
  split; [exact H|].
  destruct (queries ["Buy milk"; "Call mom"] [] None [] []) as (_ & Hq & _).
  exact (Hq "BUY" "buy" H).
Defined.

(** ** The text of the file *)

Section FileText.

Import Json.

Lemma printable_append (a b : string) : printable (a +:+ b) = printable a && printable b.
Proof.
  induction a as [|c a IH]; [reflexivity|].
  cbn. now rewrite IH, andb_assoc.
Qed.

Lemma printable_escape_char (c : ascii) : printable (escape_char c) = true.
Proof.
  destruct c as [b0 b1 b2 b3 b4 b5 b6 b7].
  destruct b0, b1, b2, b3, b4, b5, b6, b7; reflexivity.
Qed.

Lemma printable_escape (s : string) : printable (escape s) = true.
Proof.
  induction s as [|c s IH]; [reflexivity|].
  cbn [escape]. now rewrite printable_append, printable_escape_char, IH.
Qed.

Lemma printable_encode_str (s : string) : printable (encode_str s) = true.
Proof.
  unfold encode_str. cbn [printable]. rewrite printable_append, printable_escape.
  reflexivity.
Qed.

Lemma printable_uint (d : Decimal.uint) : printable (NilEmpty.string_of_uint d) = true.
Proof. induction d; cbn; auto. Qed.

Lemma printable_nilzero (d : Decimal.uint) : printable (NilZero.string_of_uint d) = true.
Proof. unfold NilZero.string_of_uint. destruct d; (reflexivity || apply printable_uint). Qed.

Lemma printable_encode_int (z : Z) : printable (encode_int z) = true.
Proof.
  unfold encode_int, NilZero.string_of_int.
  destruct (Z.to_int z) as [d|d]; [apply printable_nilzero|].
  cbn [printable]. rewrite printable_nilzero. reflexivity.
Qed.

Lemma printable_concat (l : list string) :
  Forall (fun x => printable x = true) l -> printable (String.concat ", " l) = true.
Proof.
  induction 1 as [|x l Hx Hl IH]; [reflexivity|].
  cbn [String.concat]. destruct l as [|y l]; [exact Hx|].
  now rewrite !printable_append, Hx, IH.
Qed.

(** Induction on a value, through the lists it is nested in. *)
Lemma pyval_induction (P : pyval -> Prop)
    (HNone : P PNone) (HBool : forall b, P (PBool b)) (HInt : forall z, P (PInt z))
    (HStr : forall s, P (PStr s))
    (HList : forall items, Forall P items -> P (PList items))
    (HDict : forall items, Forall (fun kv => P (snd kv)) items -> P (PDict items)) :
  forall v, P v.
Proof.
  exact (fix IH (v : pyval) : P v :=
           match v with
           | PNone => HNone
           | PBool b => HBool b
           | PInt z => HInt z
           | PStr s => HStr s
           | PList items =>
               HList items
                 ((fix go (l : list pyval) : Forall P l :=
                     match l return Forall P l with
                     | [] => @List.Forall_nil _ P
                     | x :: l' => @List.Forall_cons _ P x l' (IH x) (go l')
                     end) items)
           | PDict items =>
               HDict items
                 ((fix go (l : list (string * pyval)) : Forall (fun kv => P (snd kv)) l :=
                     match l return Forall (fun kv => P (snd kv)) l with
                     | [] => @List.Forall_nil _ (fun kv => P (snd kv))
                     | (k, x) :: l' =>
                         @List.Forall_cons _ (fun kv => P (snd kv)) (k, x) l' (IH x) (go l')
                     end) items)
           end).
Qed.

Lemma printable_dumps (v : pyval) : printable (dumps v) = true.
Proof.
  induction v as [| b | z | s | items IH | items IH] using pyval_induction; cbn [dumps].
  - reflexivity.
  - now destruct b.
  - apply printable_encode_int.
  - apply printable_encode_str.
  - cbn [String.append printable]. rewrite printable_append, printable_concat; [reflexivity|].
    induction IH; cbn [map]; constructor; assumption.
  - cbn [String.append printable]. rewrite printable_append, printable_concat; [reflexivity|].
    induction IH as [|[k x] l Hx Hl IHl]; cbn [map]; constructor; [|assumption].
    cbn [snd] in Hx. rewrite printable_append, printable_encode_str.
    cbn [printable]. rewrite Hx. reflexivity.
Qed.

End FileText.

(** X15. Whatever the collection holds, the file that [save_templates]
    writes is made of printable ASCII characters only (U+0020 to
    U+007E): every other character of a description is written as an
    escape, and there is no line break in the file. *)
Theorem save_templates_printable (app : TemplaterApp) :
  exists text,
    templates_json (snd (save_templates app)) = Some text /\ printable text = true.
Proof.
  destruct app as [ts rows file lg sh]. rewrite save_templates_run.
  cbn [snd templates_json]. eexists. split; [reflexivity | apply printable_dumps].
Qed.

(** ** The descriptions that a session writes *)

Lemma perform_templates (a : action) (app : TemplaterApp) (gui : Gui) :
  let ts' := templates (fst (snd (perform a (app, gui)))) in
  ts' = templates app
  \/ exists text,
       Str.truthy (TemplateInputDialog.apply text) = true
       /\ (ts' = templates app ++ [mkTemplate (PStr (TemplateInputDialog.apply text))]
           \/ exists i,
                ts' = <[i := mkTemplate (PStr (TemplateInputDialog.apply text))]>
                        (templates app)).
Proof.
  cbn zeta. destruct app as [ts rows file lg sh].
  destruct a as [dialog | selected dialog | query | | selected];
    cbn [perform templates].
  - destruct dialog as [text|];
      [destruct (Str.truthy (TemplateInputDialog.apply text)) eqn:Hr|].
    + destruct (create_template_kept text ts rows file lg sh Hr) as (rows' & tail & sh' & H).
      cbn zeta in H. rewrite H. cbn [fst snd templates]. right. exists text. auto.
    + rewrite create_template_rejected by exact Hr. now left.
    + rewrite create_template_rejected by exact I. now left.
  - destruct selected as [|index others]; [rewrite edit_template_unselected; now left|].
    destruct (position (length ts) index) as [i|] eqn:Hp;
      [|rewrite edit_template_out_of_range by exact Hp; now left].
    destruct dialog as [text|];
      [destruct (Str.truthy (TemplateInputDialog.apply text)) eqn:Hr|].
    + destruct (edit_template_kept index others text i ts rows file lg sh Hp Hr)
        as (rows' & tail & sh' & H).
      cbn zeta in H. rewrite H. cbn [fst snd templates]. right. exists text. eauto.
    + rewrite (edit_template_rejected index others (Some text) i) by assumption. now left.
    + rewrite (edit_template_rejected index others None i) by (assumption || exact I).
      now left.
  - destruct (search_templates_frame query ts rows file lg sh) as (r & rows' & tail & ->).
    now left.
  - destruct (update_template_list_frame None ts rows file lg sh)
      as (r & rows' & tail & -> & _).
    now left.
  - destruct (copy_template selected _ gui) as [r gui']. now left.
Qed.

Lemma clean_apply (text : string) :
  Str.truthy (TemplateInputDialog.apply text) = true ->
  clean (mkTemplate (PStr (TemplateInputDialog.apply text))) = true.
Proof.
  intros H. unfold clean. cbn [description]. rewrite H.
  unfold TemplateInputDialog.apply. rewrite strip_strip. apply String.eqb_refl.
Qed.

(** X16. A collection in which every description is a text that is not
    empty and has no white space at its ends stays such a collection
    through any session: a creation or an edit writes the stripped text
    of the dialog, and only when it is not empty; nothing else writes a
    description. *)
Theorem session_clean (actions : list action) (app : TemplaterApp) (gui : Gui) :
  Forall (fun t => clean t = true) (templates app) ->
  Forall (fun t => clean t = true) (templates (fst (snd (session actions (app, gui))))).
Proof.
  revert app gui. induction actions as [|a rest IH]; intros app gui Hc; [exact Hc|].
  rewrite session_cons. cbn [fst snd].
  pose proof (perform_templates a app gui) as Hp. cbn zeta in Hp.
  destruct (perform a (app, gui)) as [r [app' gui']]. cbn [fst snd] in *.
  apply IH.
  destruct Hp as [-> | (text & Hr & [-> | [i ->]])].
  - exact Hc.
  - apply Forall_app. split; [exact Hc|]. constructor; [now apply clean_apply | constructor].
  - apply Forall_insert; [exact Hc | now apply clean_apply].
Qed.

(** An empty collection, a creation with white space around the text, a
    creation with a blank text and an edit. *)
Lemma session_clean_witness :
  let app := mkApp [] [] None [] [] in
  let gui := mkGui "grey" (mkStatus "" "black" "grey") [] [] in
  let actions := [Create (Some "  a b  "); Create (Some "   "); Edit [0%Z] (Some " c ")] in
  Forall (fun t => clean t = true) (templates app)
  /\ Forall (fun t => clean t = true) (templates (fst (snd (session actions (app, gui)))))
  /\ templates (fst (snd (session actions (app, gui)))) = Doc.store ["c"].
Proof.
  cbn zeta.
  assert (H : Forall (fun t => clean t = true) (templates (mkApp [] [] None [] [])))
    by constructor.
  split; [exact H|]. split; [|vm_compute; reflexivity].
  exact (session_clean _ _ _ H).
Defined.

(** ** How a start ends *)

(** X13. A start without a file, or on a file on which [json.load]
    raises [JSONDecodeError], returns with an empty collection and an
    empty listbox. A start on an array
    whose elements all decode, one of them to a description that is not
    a text, loads the collection and then stops with the [TypeError] of
    the first filling of the listbox. *)
Theorem start_outcomes (app_dir : string) :
  (exists lg, start app_dir None = (Returns tt, mkApp [] [] None lg []))
  /\ (forall text,
         Json.loads text = Json.Malformed ->
         exists lg, start app_dir (Some text) = (Returns tt, mkApp [] [] (Some text) lg []))
  /\ (forall text items ts,
         Json.loads text = Json.Document (PList items) ->
         comprehension from_dict items = Returns ts ->
         all_text ts = false ->
         exists rows lg,
           start app_dir (Some text) = (Raises TypeError, mkApp ts rows (Some text) lg [])).
Proof.
  split; [|split].
  - rewrite start_run, load_templates_missing. fields.
    change (@nil Template) with (Doc.store []).
    rewrite update_template_list_store. fields. eexists. reflexivity.
  - intros text H. rewrite start_run, (load_templates_malformed _ _ _ _ _ H). fields.
    change (@nil Template) with (Doc.store []).
    rewrite update_template_list_store. fields. eexists. reflexivity.
  - intros text items ts H Hc Hall.
    rewrite start_run, (load_templates_document _ _ _ _ _ _ H). cbn [iterate].
    rewrite Hc. fields.
    destruct (first_non_text ts Hall) as (pre & t & post & -> & Ht).
    rewrite update_template_list_stops by exact Ht. eauto.
Qed.

(** A file that is cut short, and the file whose description is the
    number 5. *)
Lemma start_outcomes_witness :
  (exists lg, start "dir" (Some "[{") = (Returns tt, mkApp [] [] (Some "[{") lg []))
  /\ (exists rows lg,
         start "dir" (Some Doc.number_description)
         = (Raises TypeError,
            mkApp [mkTemplate (PInt 5)] rows (Some Doc.number_description) lg [])).
Proof.
  destruct (start_outcomes "dir") as (_ & Hm & Ht). split.
  - apply Hm. vm_compute. reflexivity.
  - apply (Ht Doc.number_description [PDict [("description", PInt 5)]]
             [mkTemplate (PInt 5)]); vm_compute; reflexivity.
Defined.

(** ** The status bar *)

(** X14. A status message is never taken back before its time: every
    [show_status_message] adds one call of [clear_status_message] to
    those that wait and removes none, and leaves the clipboard alone; and
    [clear_status_message] empties the bar and restores its colours
    whatever message is on it, so the clear of an earlier message also
    clears a later one. *)
Theorem status_messages (messages : list (string * nat)) (gui : Gui) :
  let gui' := fold_left (fun g md => show_status_message (fst md) (snd md) g) messages gui in
  scheduled gui' = scheduled gui ++ map (fun md => (snd md, ClearStatusMessage)) messages
  /\ clipboard gui' = clipboard gui
  /\ root_bg gui' = root_bg gui
  /\ status_bar (clear_status_message gui') = mkStatus EmptyString "black" (root_bg gui)
  /\ scheduled (clear_status_message gui') = scheduled gui'.
Proof.
  cbn zeta. revert gui. induction messages as [|[m d] rest IH]; intros gui.
  - cbn. rewrite app_nil_r. auto.
  - cbn [fold_left map fst snd].
    destruct (IH (show_status_message m d gui)) as (Hs & Hc & Hb & Hbar & Hsch).
    cbn [show_status_message after status_config scheduled clipboard root_bg]
      in Hs, Hc, Hb, Hbar.
    split; [rewrite Hs, <- app_assoc; reflexivity|].
    split; [exact Hc|]. split; [exact Hb|]. split; [exact Hbar | exact Hsch].
Qed.
